(** * pdfMapperExcel: the field-mapping registry, the coordinate mapper and
      the batch generation pipeline.

    Embedded sources:
    - [src/project/src/App.tsx]                  (module [App])
    - [src/project/src/components/PDFViewer.tsx] (module [PDFViewer])
    - [src/unnamed/part_000], an earlier revision of [App.tsx] (module [Part000])
    - [src/unnamed/part_001], the shared type declarations (module [types]) *)

From Stdlib Require Import ZArith QArith Qround Qabs Lqa Ascii DecimalString.
From stdpp Require Import gmap strings list.

Local Open Scope Z_scope.
Local Open Scope list_scope.

(** ** JavaScript values and built-ins used by the sources *)

Module JS.

(** A spreadsheet cell, [string | number].  The numbers of this development
    are the integers of magnitude below [10^21]: that is where [String(n)]
    is plain decimal notation and where the only falsy number is [0].  A
    cell with a fraction, or with an integer from [10^21] on (printed with
    an exponent), has no value here. *)
Inductive value :=
| Str (s : string)
| Num (n : Z).

(** [String(v)]. *)
Definition String (v : value) : string :=
  match v with
  | Str s => s
  | Num n => NilZero.string_of_int (Z.to_int n)
  end.

(** [Boolean(s)] on a string: only the empty string is falsy. *)
Definition Boolean (s : string) : bool :=
  match s with
  | EmptyString => false
  | _ => true
  end.

(** Truthiness of a cell: [""] and [0] are falsy. *)
Definition truthy (v : value) : bool :=
  match v with
  | Str s => Boolean s
  | Num n => negb (n =? 0)
  end.

(** [o || ""] where [o] is the result of a property read ([None] is
    [undefined]). *)
Definition or_empty (o : option value) : value :=
  match o with
  | Some v => if truthy v then v else Str ""
  | None => Str ""
  end.

(** [Math.round]: the nearest integer, halves going up. *)
Definition Math_round (q : Q) : Z := Qfloor (q + (1 # 2))%Q.

(** [arr.slice(start, end)] with the relative (negative) indices of the
    language. *)
Definition slice {A} (arr : list A) (start end_ : Z) : list A :=
  let len := Z.of_nat (length arr) in
  let k := if start <? 0 then Z.max (len + start) 0 else Z.min start len in
  let final := if end_ <? 0 then Z.max (len + end_) 0 else Z.min end_ len in
  take (Z.to_nat (final - k)) (drop (Z.to_nat k) arr).

(** [arr.join(sep)] on an array of strings. *)
Fixpoint join (sep : string) (arr : list string) : string :=
  match arr with
  | [] => ""
  | [s] => s
  | s :: rest => s +:+ sep +:+ join sep rest
  end.

(** [arr[i]] for a numeric index: [undefined] out of range. *)
Definition index {A} (arr : list A) (i : Z) : option A :=
  if i <? 0 then None else arr !! Z.to_nat i.

End JS.

(** ** [./types] *)

Module types.

Record FieldMapping := {
  x : Q;
  y : Q;
  field : string;
  page : Z;
}.

(** [interface ExcelData { [key: string]: string | number }] : the own
    properties of a row object. *)
Abbreviation ExcelData := (gmap string JS.value).

End types.

(** ** [components/PDFViewer.tsx] *)

Module PDFViewer.

(** [const [scale] = useState(1.5)] *)
Definition scale : Q := (3 # 2)%Q.

(** The coordinate computed by [handleCanvasClick] (and [handleMouseMove])
    from a pointer offset [p = e.clientX - rect.left] at scale [s]. *)
Definition toDocument (p : Q) (s : Q) : Q := inject_Z (JS.Math_round (p / s)%Q).

(** The overlay offset [mapping.x * scale]. *)
Definition toRaster (d : Q) (s : Q) : Q := (d * s)%Q.

(** [handleCanvasClick]: [None] is the alert for a missing field. *)
Definition handleCanvasClick (selectedField : string) (currentPage : Z)
    (px py : Q) : option types.FieldMapping :=
  if JS.Boolean selectedField then
    Some {| types.x := toDocument px scale;
            types.y := toDocument py scale;
            types.field := selectedField;
            types.page := currentPage |}
  else None.

(** The mappings overlaid on the current page. *)
Definition overlay (mappings : list types.FieldMapping) (currentPage : Z)
    : list (Q * Q) :=
  map (fun m => (toRaster (types.x m) scale, toRaster (types.y m) scale))
      (filter (fun m => types.page m = currentPage) mappings).

End PDFViewer.

(** ** The part of [pdf-lib] the pipeline drives *)

Module PDFLib.

(** An embedded font, known by its metrics. *)
Record PDFFont := {
  widthOfTextAtSize : string -> Q -> Q;
}.

(** One [page.drawText(text, { x, y, font, size })] call. *)
Record Stamp := {
  text : string;
  at_x : Q;
  at_y : Q;
  font : PDFFont;
  size : Q;
}.

(** A page: its size ([page.getSize()]) and the text drawn on it so far. *)
Record PDFPage := {
  width : Q;
  height : Q;
  content : list Stamp;
}.

Definition drawText (p : PDFPage) (s : Stamp) : PDFPage :=
  {| width := width p; height := height p; content := content p ++ [s] |}.

(** A document is its pages, [doc.getPages()]. *)
Abbreviation PDFDocument := (list PDFPage).

Definition getPageCount (doc : PDFDocument) : nat := length doc.

(** [Array.from({ length: n }, (_, i) => i)] *)
Definition pageIndices (n : nat) : list nat := seq 0 n.

(** [newPdf.copyPages(src, indices)] followed by [addPage] of each copy on
    the fresh document: the new document holds copies of the selected pages,
    the source is left as it was. *)
Definition copyPages (src : PDFDocument) (indices : list nat) : PDFDocument :=
  omap (fun i => src !! i) indices.

(** The result of [doc.save()], kept as the document it serialises. *)
Inductive Uint8Array :=
| Serialized (doc : PDFDocument).

(** The page [addPage()] makes when given no size: an empty A4 page. *)
Definition defaultPage : PDFPage :=
  {| width := 59528 # 100; height := 84189 # 100; content := [] |}.

(** [doc.save()]: a document without pages is given the default page before
    it is written ([addDefaultPage] is on unless asked otherwise). *)
Definition save (doc : PDFDocument) : Uint8Array :=
  Serialized (match doc with
              | [] => [defaultPage]
              | _ :: _ => doc
              end).

(** The document that saved bytes encode. *)
Definition saved (b : Uint8Array) : PDFDocument :=
  match b with
  | Serialized doc => doc
  end.

(** All the text of a document, page after page. *)
Definition stamps (doc : PDFDocument) : list Stamp := concat (map content doc).

End PDFLib.

(** ** The browser around the component: files, network, console, downloads *)

Module Browser.

Record File := {
  name : string;
  type : string;
  data : list Byte.byte;
}.

Record GeneratedDocument := {
  bytes : PDFLib.Uint8Array;
  filename : string;
}.

(** What a run does to the outside, in the order it does it: the request
    for the font, the decoding of the template file, [console.error],
    [a.click()] on a link to a generated document, the pause of
    [setTimeout], [alert]. *)
Inductive Event :=
| Fetch (url : string)
| Load (file : string)
| ConsoleError (msg : string)
| Download (d : GeneratedDocument)
| SetTimeout (ms : Z)
| Alert (msg : string).

(** What the outside answers; [None] is a rejected promise.
    - [fetch url] is [fetch(url).then((res) => res.arrayBuffer())];
    - [PDFDocument_load bytes] is [PDFDocument.load(bytes)], the pages of the
      decoded template;
    - [embedFont bytes] is [newPdf.embedFont(bytes, { subset: true, ... })]
      on a fresh document with fontkit registered: whether it succeeds is a
      matter of the font bytes alone. *)
Record World := {
  fetch : string -> option (list Byte.byte);
  PDFDocument_load : list Byte.byte -> option PDFLib.PDFDocument;
  embedFont : list Byte.byte -> option PDFLib.PDFFont;
}.

(** A computation that logs events and either returns or throws. *)
Definition Eff (A : Type) : Type := list Event * option A.

Definition ret {A} (a : A) : Eff A := ([], Some a).

Definition bind {A B} (m : Eff A) (f : A -> Eff B) : Eff B :=
  match m with
  | (t, Some a) => let '(t', r) := f a in (t ++ t', r)
  | (t, None) => (t, None)
  end.

Definition emit (es : list Event) : Eff unit := (es, Some tt).

(** An awaited promise: its value, or the exception. *)
Definition await {A} (o : option A) : Eff A := ([], o).

(** [try { m } catch (error) { h }] *)
Definition try_catch (m : Eff unit) (h : Eff unit) : Eff unit :=
  match m with
  | (t, None) => let '(t', r) := h in (t ++ t', r)
  | _ => m
  end.

(** [for (const a of l) { ... }] collecting one result per iteration. *)
Fixpoint for_of {A B} (l : list A) (body : A -> Eff B) : Eff (list B) :=
  match l with
  | [] => ret []
  | a :: rest =>
      bind (body a) (fun b => bind (for_of rest body) (fun bs => ret (b :: bs)))
  end.

Definition trace {A} (m : Eff A) : list Event := fst m.

(** The documents handed to the user, in order. *)
Definition downloads (t : list Event) : list GeneratedDocument :=
  omap (fun e => match e with Download d => Some d | _ => None end) t.

Definition console (t : list Event) : list string :=
  omap (fun e => match e with ConsoleError msg => Some msg | _ => None end) t.

Definition alerts (t : list Event) : list string :=
  omap (fun e => match e with Alert msg => Some msg | _ => None end) t.

End Browser.

Notation "x <~ m ;; k" := (Browser.bind m (fun x => k))
  (at level 100, m at next level, right associativity).
Notation "m ;;; k" := (Browser.bind m (fun _ => k))
  (at level 100, right associativity).

(** ** String replacements used for the base filename *)

Module Replace.

(** Scanning a name from its end for [/\.[^/.]+$/]: the length of the match,
    when there is one.  [seen] counts the characters passed so far, none of
    them a dot or a slash. *)
Fixpoint extension_from_end (rev_name : list Ascii.ascii) (seen : nat) : option nat :=
  match rev_name with
  | [] => None
  | c :: before =>
      if Ascii.eqb c "."%char then
        match seen with
        | O => None
        | S _ => Some (S seen)
        end
      else if Ascii.eqb c "/"%char then None
      else extension_from_end before (S seen)
  end.

(** [name.replace(/\.[^/.]+$/, "")] *)
Definition strip_extension (name : string) : string :=
  let chars := String.list_ascii_of_string name in
  match extension_from_end (rev chars) 0 with
  | Some n => String.string_of_list_ascii (take (length chars - n) chars)
  | None => name
  end.

(** [s.replace(pattern, by)] with a string pattern: the first occurrence. *)
Fixpoint replace_first (pattern by_ s : string) : string :=
  if String.prefix pattern s then
    by_ +:+ String.string_of_list_ascii
              (drop (String.length pattern) (String.list_ascii_of_string s))
  else
    match s with
    | EmptyString => EmptyString
    | String c rest => String c (replace_first pattern by_ rest)
    end.

End Replace.

(** ** The loop over the mappings of one row

    [App.tsx] has one such loop and [part_000] two; each runs a callback of
    the same shape on every mapping,
<<
      const page = pages[mapping.page - 1];
      if (!page) { ...; return; }
      const { height } = page.getSize();
      ... page.drawText(value, { x, y, font, size });
>>
    and they differ in the options given to [drawText] and in what is logged
    when the page is missing. *)

Module Stamping.

Import types PDFLib Browser.

Section Callback.

Variable options : Q -> FieldMapping -> Stamp.
Variable missing : FieldMapping -> list Event.

(** One call of the callback: the pages after it and what it logged. *)
Definition drawMapping (pages : PDFDocument) (mapping : FieldMapping)
    : PDFDocument * list Event :=
  match JS.index pages (page mapping - 1) with
  | None => (pages, missing mapping)
  | Some p =>
      (alter (fun p => drawText p (options (height p) mapping))
             (Z.to_nat (page mapping - 1)) pages,
       [])
  end.

(** The callbacks run one after the other, in the order of the array; none
    of them suspends before its [drawText] has returned. *)
Fixpoint drawMappings (pages : PDFDocument) (ms : list FieldMapping)
    : PDFDocument * list Event :=
  match ms with
  | [] => (pages, [])
  | mapping :: rest =>
      let '(pages1, log1) := drawMapping pages mapping in
      let '(pages2, log2) := drawMappings pages1 rest in
      (pages2, log1 ++ log2)
  end.

(** Page [i] (counted from 0) once the mappings [ms] that name it were
    drawn on it, in their order. *)
Definition stamped (ms : list FieldMapping) (i : nat) (p : PDFPage) : PDFPage :=
  {| width := width p;
     height := height p;
     content := content p
                ++ map (options (height p))
                       (filter (fun m => page m = Z.of_nat i + 1) ms) |}.

End Callback.

(** The page of a mapping exists in a document of [n] pages. *)
Definition onPage (n : nat) (mapping : FieldMapping) : bool :=
  (1 <=? page mapping) && (page mapping <=? Z.of_nat n).

End Stamping.

(** ** [src/project/src/App.tsx] *)

Module App.

Import types PDFLib Browser.

(** The component state ([useState]). *)
Record State := {
  pdfFile : option File;
  excelFile : option File;
  excelData : list ExcelData;
  excelColumns : list string;
  mappings : list FieldMapping;
  customFilename : string;
  selectedFilenameFields : list string;
}.

Definition setMappings (st : State) (ms : list FieldMapping) : State :=
  {| pdfFile := pdfFile st;
     excelFile := excelFile st;
     excelData := excelData st;
     excelColumns := excelColumns st;
     mappings := ms;
     customFilename := customFilename st;
     selectedFilenameFields := selectedFilenameFields st |}.

Definition handleAddMapping (st : State) (mapping : FieldMapping) : State :=
  setMappings st (mappings st ++ [mapping]).

Definition handleRemoveLastMapping (st : State) : State :=
  setMappings st (JS.slice (mappings st) 0 (-1)).

Definition fontUrl : string :=
  "https://fonts.gstatic.com/s/notosansthai/v20/iJWnBXeUZi_OHPqn4wq6hQ2_hbJ1xyN9wd43SofNWcd1MKVQt_So_9CdU5RtpzF-QRvzzXg.ttf".

(** [String(row[field] || "")] *)
Definition cellText (row : ExcelData) (field : string) : string :=
  JS.String (JS.or_empty (row !! field)).

(** The options of the [drawText] call for [mapping] on a page of the given
    height. *)
Definition stampFor (customFont : PDFFont) (row : ExcelData) (height : Q)
    (mapping : FieldMapping) : Stamp :=
  let value := cellText row (field mapping) in
  let textWidth := widthOfTextAtSize customFont value 10 in
  {| text := value;
     at_x := (x mapping - textWidth / 2)%Q;
     at_y := (height - y mapping - 5)%Q;
     font := customFont;
     size := 10 |}.

(** [console.error(`Page ${mapping.page} not found`)] *)
Definition pageNotFound (mapping : FieldMapping) : list Event :=
  [ConsoleError ("Page " +:+ NilZero.string_of_int (Z.to_int (page mapping))
                 +:+ " not found")].

(** [await Promise.all(mappings.map(async (mapping) => ...))] *)
Definition drawMappings (customFont : PDFFont) (row : ExcelData)
    (pages : PDFDocument) (ms : list FieldMapping)
    : PDFDocument * list Event :=
  Stamping.drawMappings (stampFor customFont row) pageNotFound pages ms.

(** [customFilename || excelFile?.name.replace(/\.[^/.]+$/, "") || ""] *)
Definition baseFilename (st : State) : string :=
  if JS.Boolean (customFilename st) then customFilename st
  else
    match excelFile st with
    | Some f =>
        if JS.Boolean (Replace.strip_extension (name f))
        then Replace.strip_extension (name f)
        else ""
    | None => ""
    end.

(** The filename made of a base and of the values of the selected fields:
    [values.filter(Boolean)], then
    [fieldValues.length > 0 ? `${baseFilename}-${fieldValues.join("-")}.pdf`
                            : `${baseFilename}.pdf`]. *)
Definition composeFilename (baseFilename : string) (values : list string)
    : string :=
  let fieldValues := filter (fun v => Is_true (JS.Boolean v)) values in
  if (0 <? length fieldValues)%nat
  then baseFilename +:+ "-" +:+ JS.join "-" fieldValues +:+ ".pdf"
  else baseFilename +:+ ".pdf".

(** [selectedFilenameFields.map((field) => String(row[field] || ""))],
    composed with the base. *)
Definition newFilename (st : State) (row : ExcelData) : string :=
  composeFilename (baseFilename st)
    (map (cellText row) (selectedFilenameFields st)).

(** The pages of the document of one row, once every mapping was drawn. *)
Definition rowPages (customFont : PDFFont) (pdfDoc : PDFDocument) (st : State)
    (row : ExcelData) : PDFDocument * list Event :=
  let newPdf := copyPages pdfDoc (pageIndices (getPageCount pdfDoc)) in
  drawMappings customFont row newPdf (mappings st).

(** What is pushed on [pdfsToDownload] for one row. *)
Definition rowDocument (customFont : PDFFont) (pdfDoc : PDFDocument)
    (st : State) (row : ExcelData) : GeneratedDocument :=
  {| bytes := save (fst (rowPages customFont pdfDoc st row));
     filename := newFilename st row |}.

(** The body of [for (const row of excelData)]. *)
Definition generateOne (w : World) (st : State) (fontBytes : list Byte.byte)
    (pdfDoc : PDFDocument) (row : ExcelData) : Eff GeneratedDocument :=
  customFont <~ await (embedFont w fontBytes) ;;
  emit (snd (rowPages customFont pdfDoc st row)) ;;;
  ret (rowDocument customFont pdfDoc st row).

(** The download loop, with its pause between two downloads. *)
Fixpoint downloadAll (pdfsToDownload : list GeneratedDocument) : list Event :=
  match pdfsToDownload with
  | [] => []
  | [d] => [Download d]
  | d :: rest => Download d :: SetTimeout 500 :: downloadAll rest
  end.

Definition generatePDFs (w : World) (st : State) : list Event :=
  match pdfFile st with
  | None => []
  | Some pdf =>
      if (length (excelData st) =? 0)%nat || (length (mappings st) =? 0)%nat
      then []
      else
        trace
          (try_catch
             (emit [Fetch fontUrl] ;;;
              fontBytes <~ await (fetch w fontUrl) ;;
              emit [Load (name pdf)] ;;;
              pdfDoc <~ await (PDFDocument_load w (data pdf)) ;;
              pdfsToDownload <~ for_of (excelData st)
                                  (generateOne w st fontBytes pdfDoc) ;;
              emit (downloadAll pdfsToDownload))
             (emit [ConsoleError "Error generating PDFs:";
                    Alert "Error generating PDFs. Please check the console for details."]))
  end.

End App.

(** ** [src/unnamed/part_000]: the earlier revision of [App.tsx] *)

Module Part000.

Import types PDFLib Browser.

Record State := {
  pdfFile : option File;
  excelFile : option File;
  excelData : list ExcelData;
  excelColumns : list string;
  mappings : list FieldMapping;
  filenameField : string;
}.

Definition setMappings (st : State) (ms : list FieldMapping) : State :=
  {| pdfFile := pdfFile st;
     excelFile := excelFile st;
     excelData := excelData st;
     excelColumns := excelColumns st;
     mappings := ms;
     filenameField := filenameField st |}.

Definition handleAddMapping (st : State) (mapping : FieldMapping) : State :=
  setMappings st (mappings st ++ [mapping]).

Definition handleRemoveLastMapping (st : State) : State :=
  setMappings st (JS.slice (mappings st) 0 (-1)).

(** [String(row[field] || "")] *)
Definition cellText (row : ExcelData) (field : string) : string :=
  JS.String (JS.or_empty (row !! field)).

(** The options of both [drawText] calls. *)
Definition stampFor (customFont : PDFFont) (row : ExcelData) (height : Q)
    (mapping : FieldMapping) : Stamp :=
  let value := cellText row (field mapping) in
  {| text := value;
     at_x := x mapping;
     at_y := (height - y mapping - 5)%Q;
     font := customFont;
     size := 10 |}.

Definition pageNotFound (mapping : FieldMapping) : list Event :=
  [ConsoleError ("Page " +:+ NilZero.string_of_int (Z.to_int (page mapping))
                 +:+ " not found")].

(** [mappings.forEach(async (mapping) => { try { ... } catch ... })]: not
    awaited, yet every callback has run to its end when [forEach] returns,
    for nothing in it suspends; and its [catch] has nothing to catch, for
    [drawText] with an embedded font does not throw. *)
Definition drawUnawaited (customFont : PDFFont) (row : ExcelData)
    (pages : PDFDocument) (ms : list FieldMapping)
    : PDFDocument * list Event :=
  Stamping.drawMappings (stampFor customFont row) pageNotFound pages ms.

(** [await Promise.all(mappings.map(async (mapping) => ...))], where a
    missing page is passed over in silence. *)
Definition drawAwaited (customFont : PDFFont) (row : ExcelData)
    (pages : PDFDocument) (ms : list FieldMapping)
    : PDFDocument * list Event :=
  Stamping.drawMappings (stampFor customFont row) (fun _ => []) pages ms.

(** [`${originalName}-${fieldValue}.pdf`] *)
Definition newFilename (pdf : File) (row : ExcelData) (filenameField : string)
    : string :=
  let originalName := Replace.replace_first ".pdf" "" (name pdf) in
  let fieldValue := cellText row filenameField in
  originalName +:+ "-" +:+ fieldValue +:+ ".pdf".

(** The pages of the document of one row after the two loops, and what the
    loops logged. *)
Definition rowPages (customFont : PDFFont) (pdfDoc : PDFDocument) (st : State)
    (row : ExcelData) : PDFDocument * list Event :=
  let newPdf := copyPages pdfDoc (pageIndices (getPageCount pdfDoc)) in
  let '(pages1, log1) := drawUnawaited customFont row newPdf (mappings st) in
  let '(pages2, log2) := drawAwaited customFont row pages1 (mappings st) in
  (pages2, log1 ++ log2).

(** What [a.click()] downloads for one row. *)
Definition rowDocument (customFont : PDFFont) (pdfDoc : PDFDocument)
    (st : State) (pdf : File) (row : ExcelData) : GeneratedDocument :=
  {| bytes := save (fst (rowPages customFont pdfDoc st row));
     filename := newFilename pdf row (filenameField st) |}.

(** The body of [for (const row of excelData)]; the document is downloaded
    before the next row is begun. *)
Definition generateOne (w : World) (st : State) (pdf : File)
    (fontBytes : list Byte.byte) (pdfDoc : PDFDocument) (row : ExcelData)
    : Eff unit :=
  customFont <~ await (embedFont w fontBytes) ;;
  emit (snd (rowPages customFont pdfDoc st row)) ;;;
  emit [Download (rowDocument customFont pdfDoc st pdf row)].

Definition generatePDFs (w : World) (st : State) : list Event :=
  match pdfFile st with
  | None => []
  | Some pdf =>
      if (length (excelData st) =? 0)%nat || (length (mappings st) =? 0)%nat
      then []
      else
        trace
          (try_catch
             (emit [Fetch App.fontUrl] ;;;
              fontBytes <~ await (fetch w App.fontUrl) ;;
              emit [Load (name pdf)] ;;;
              pdfDoc <~ await (PDFDocument_load w (data pdf)) ;;
              for_of (excelData st) (generateOne w st pdf fontBytes pdfDoc) ;;;
              ret tt)
             (emit [ConsoleError "Error generating PDFs:";
                    Alert "Error generating PDFs. Please check the console for details."]))
  end.

End Part000.

(** ** The filename composer as the specification words it *)

Module Spec.

(** Discard the empty strings; when something is left, the base, a dash, the
    values joined by dashes and the extension; otherwise the base and the
    extension. *)
Definition compose (base : string) (values : list string) : string :=
  match filter (fun v => v <> "") values with
  | [] => base +:+ ".pdf"
  | kept => base +:+ "-" +:+ String.concat "-" kept +:+ ".pdf"
  end.

End Spec.

(** ** Sample data: a one-page and a two-page template, two rows *)

Module Sample.

Import types PDFLib Browser.

(** Every glyph is half an em wide. *)
Definition font : PDFFont :=
  {| widthOfTextAtSize := fun s sz =>
       (inject_Z (Z.of_nat (String.length s)) * sz * (1 # 2))%Q |}.

Definition a4 : PDFPage := {| width := 595; height := 842; content := [] |}.

Definition online (template : PDFDocument) : World :=
  {| fetch := fun _ => Some [];
     PDFDocument_load := fun _ => Some template;
     embedFont := fun _ => Some font |}.

Definition offline (template : PDFDocument) : World :=
  {| fetch := fun _ => None;
     PDFDocument_load := fun _ => Some template;
     embedFont := fun _ => Some font |}.

Definition undecodable : World :=
  {| fetch := fun _ => Some [];
     PDFDocument_load := fun _ => None;
     embedFont := fun _ => Some font |}.

Definition somchai : ExcelData :=
  {[ "Name" := JS.Str "Somchai"; "Amount" := JS.Num 500 ]}.

Definition malee : ExcelData :=
  {[ "Name" := JS.Str "Malee"; "Amount" := JS.Num 0 ]}.

(** A row whose [Name] cell is blank: the sheet reader leaves the key out. *)
Definition nameless : ExcelData :=
  {[ "Amount" := JS.Num 500 ]}.

Definition amount : FieldMapping :=
  {| x := 100; y := 50; field := "Amount"; page := 1 |}.

Definition name_on_page_3 : FieldMapping :=
  {| x := 10; y := 10; field := "Name"; page := 3 |}.

Definition template_pdf : File :=
  {| name := "template.pdf"; type := "application/pdf"; data := [] |}.

Definition rows_xlsx : File :=
  {| name := "rows.xlsx";
     type := "application/vnd.openxmlformats-officedocument.spreadsheetml.sheet";
     data := [] |}.

Definition state (rows : list ExcelData) (ms : list FieldMapping)
    : App.State :=
  {| App.pdfFile := Some template_pdf;
     App.excelFile := Some rows_xlsx;
     App.excelData := rows;
     App.excelColumns := ["Name"; "Amount"];
     App.mappings := ms;
     App.customFilename := "invoice";
     App.selectedFilenameFields := ["Name"] |}.

Definition state000 (rows : list ExcelData) (ms : list FieldMapping)
    : Part000.State :=
  {| Part000.pdfFile := Some template_pdf;
     Part000.excelFile := Some rows_xlsx;
     Part000.excelData := rows;
     Part000.excelColumns := ["Name"; "Amount"];
     Part000.mappings := ms;
     Part000.filenameField := "Name" |}.

End Sample.

(** ** The state and the handlers of the viewer, [components/PDFViewer.tsx] *)

Module Viewer.

Import types.

(** The component state ([useState]); the loaded document is known by its
    [numPages]. *)
Record State := {
  pdf : option nat;
  currentPage : Z;
  totalPages : Z;
  selectedField : string;
  mousePosition : Q * Q;
}.

(** The state a freshly mounted viewer starts from. *)
Definition init : State :=
  {| pdf := None;
     currentPage := 1;
     totalPages := 1;
     selectedField := "";
     mousePosition := (0, 0)%Q |}.

(** [loadPDF], once the document is there: [setPdf(loadedPdf)],
    [setTotalPages(loadedPdf.numPages)], [renderPage(1, loadedPdf)].  The
    current page is not among the things it sets. *)
Definition loadPDF (st : State) (numPages : nat) : State :=
  {| pdf := Some numPages;
     currentPage := currentPage st;
     totalPages := Z.of_nat numPages;
     selectedField := selectedField st;
     mousePosition := mousePosition st |}.

(** The [onChange] of the field dropdown. *)
Definition setSelectedField (st : State) (f : string) : State :=
  {| pdf := pdf st;
     currentPage := currentPage st;
     totalPages := totalPages st;
     selectedField := f;
     mousePosition := mousePosition st |}.

(** [handleMouseMove], for a pointer at offset [(px, py)] from the corner of
    the canvas. *)
Definition handleMouseMove (st : State) (px py : Q) : State :=
  {| pdf := pdf st;
     currentPage := currentPage st;
     totalPages := totalPages st;
     selectedField := selectedField st;
     mousePosition := (PDFViewer.toDocument px PDFViewer.scale,
                       PDFViewer.toDocument py PDFViewer.scale) |}.

(** [handleCanvasClick] in a given state: the mapping handed to
    [onAddMapping], if any. *)
Definition handleCanvasClick (st : State) (px py : Q) : option FieldMapping :=
  PDFViewer.handleCanvasClick (selectedField st) (currentPage st) px py.

(** [changePage(delta)] *)
Definition changePage (st : State) (delta : Z) : State :=
  let newPage := currentPage st + delta in
  if (1 <=? newPage) && (newPage <=? totalPages st) then
    {| pdf := pdf st;
       currentPage := newPage;
       totalPages := totalPages st;
       selectedField := selectedField st;
       mousePosition := mousePosition st |}
  else st.

(** [disabled={currentPage === 1}] and [disabled={currentPage === totalPages}] *)
Definition previousDisabled (st : State) : bool := currentPage st =? 1.
Definition nextDisabled (st : State) : bool := currentPage st =? totalPages st.

(** What can happen to a mounted viewer without its parent noticing; the two
    page buttons act only when they are not disabled. *)
Inductive Action :=
| Select (f : string)
| Move (px py : Q)
| Previous
| Next.

Definition step (st : State) (a : Action) : State :=
  match a with
  | Select f => setSelectedField st f
  | Move px py => handleMouseMove st px py
  | Previous => if previousDisabled st then st else changePage st (-1)
  | Next => if nextDisabled st then st else changePage st 1
  end.

Definition run (st : State) (actions : list Action) : State :=
  fold_left step actions st.

End Viewer.

(** ** The other handlers of [App.tsx] and what it renders *)

Module Handlers.

Import types Browser.

Definition setPdfFile (st : App.State) (f : File) : App.State :=
  {| App.pdfFile := Some f;
     App.excelFile := App.excelFile st;
     App.excelData := App.excelData st;
     App.excelColumns := App.excelColumns st;
     App.mappings := App.mappings st;
     App.customFilename := App.customFilename st;
     App.selectedFilenameFields := App.selectedFilenameFields st |}.

Definition setExcelFile (st : App.State) (f : File) : App.State :=
  {| App.pdfFile := App.pdfFile st;
     App.excelFile := Some f;
     App.excelData := App.excelData st;
     App.excelColumns := App.excelColumns st;
     App.mappings := App.mappings st;
     App.customFilename := App.customFilename st;
     App.selectedFilenameFields := App.selectedFilenameFields st |}.

Definition setExcelData (st : App.State) (jsonData : list ExcelData)
    (columns : list string) : App.State :=
  {| App.pdfFile := App.pdfFile st;
     App.excelFile := App.excelFile st;
     App.excelData := jsonData;
     App.excelColumns := columns;
     App.mappings := App.mappings st;
     App.customFilename := App.customFilename st;
     App.selectedFilenameFields := App.selectedFilenameFields st |}.

Definition setCustomFilename (st : App.State) (s : string) : App.State :=
  {| App.pdfFile := App.pdfFile st;
     App.excelFile := App.excelFile st;
     App.excelData := App.excelData st;
     App.excelColumns := App.excelColumns st;
     App.mappings := App.mappings st;
     App.customFilename := s;
     App.selectedFilenameFields := App.selectedFilenameFields st |}.

Definition setSelectedFilenameFields (st : App.State) (fields : list string)
    : App.State :=
  {| App.pdfFile := App.pdfFile st;
     App.excelFile := App.excelFile st;
     App.excelData := App.excelData st;
     App.excelColumns := App.excelColumns st;
     App.mappings := App.mappings st;
     App.customFilename := App.customFilename st;
     App.selectedFilenameFields := fields |}.

(** [handlePDFUpload], for the first file of the input, if there is one. *)
Definition handlePDFUpload (st : App.State) (file : option File) : App.State :=
  match file with
  | Some f => if String.eqb (type f) "application/pdf" then setPdfFile st f else st
  | None => st
  end.

(** [Object.keys(o)]: the names of the own properties of a row.  A row is
    kept as a finite map, which forgets the order in which the language
    lists them; only membership is meant. *)
Definition Object_keys (o : ExcelData) : list string := map fst (map_to_list o).

(** [handleExcelUpload].  [sheet] is what [read] and [utils.sheet_to_json]
    make of the bytes of the file: the rows of the first sheet, or [None]
    when reading throws, which leaves the handler after [setExcelFile]. *)
Definition handleExcelUpload (st : App.State) (file : option File)
    (sheet : option (list ExcelData)) : App.State :=
  match file with
  | None => st
  | Some f =>
      match sheet with
      | None => setExcelFile st f
      | Some jsonData =>
          setExcelData (setExcelFile st f) jsonData
            (Object_keys (default ∅ (head jsonData)))
      end
  end.

(** [fields.filter((_, i) => i !== index)] *)
Definition filter_index (index : nat) (fields : list string) : list string :=
  omap id (imap (fun i f => if decide (i = index) then None else Some f) fields).

(** The [onChange] of the [index]-th filename dropdown:
    [newFields = [...fields]; newFields[index] = value].  The dropdowns
    are made by [fields.map((field, index) => ...)], so [index] is a
    position of [fields]. *)
Definition changeFilenameField (st : App.State) (index : nat) (value : string)
    : App.State :=
  setSelectedFilenameFields st (<[index := value]> (App.selectedFilenameFields st)).

(** The [onClick] of the [index]-th remove button. *)
Definition removeFilenameField (st : App.State) (index : nat) : App.State :=
  setSelectedFilenameFields st (filter_index index (App.selectedFilenameFields st)).

(** The [onClick] of "+ Add Field". *)
Definition addFilenameField (st : App.State) : App.State :=
  setSelectedFilenameFields st (App.selectedFilenameFields st ++ [""]).

(** [{pdfFile && excelColumns.length > 0 && <PDFViewer ... />}] *)
Definition viewerShown (st : App.State) : bool :=
  match App.pdfFile st with
  | Some _ => (0 <? length (App.excelColumns st))%nat
  | None => false
  end.

(** [{mappings.length > 0 && ...}]: the filename controls and the button. *)
Definition controlsShown (st : App.State) : bool :=
  (0 <? length (App.mappings st))%nat.

(** [disabled={selectedFilenameFields.some((field) => !field)}] *)
Definition generateDisabled (st : App.State) : bool :=
  existsb (fun field => negb (JS.Boolean field)) (App.selectedFilenameFields st).

(** The button can be pressed. *)
Definition canGenerate (st : App.State) : bool :=
  controlsShown st && negb (generateDisabled st).

(** What the user can do to the page.  A mapping is added by a click in the
    viewer and the last one removed by its undo button, which is there when
    there is a mapping; the filename controls are there when there is a
    mapping. *)
Inductive Action :=
| UploadPDF (file : option File)
| UploadExcel (file : option File) (sheet : option (list ExcelData))
| AddMapping (m : FieldMapping)
| RemoveLastMapping
| TypeFilename (s : string)
| ChangeField (index : nat) (value : string)
| RemoveField (index : nat)
| AddField.

Definition available (st : App.State) (a : Action) : bool :=
  match a with
  | UploadPDF _ | UploadExcel _ _ => true
  | AddMapping _ => viewerShown st
  | RemoveLastMapping => viewerShown st && controlsShown st
  | TypeFilename _ | AddField => controlsShown st
  | ChangeField index _ | RemoveField index =>
      controlsShown st && (index <? length (App.selectedFilenameFields st))%nat
  end.

Definition handle (st : App.State) (a : Action) : App.State :=
  match a with
  | UploadPDF file => handlePDFUpload st file
  | UploadExcel file sheet => handleExcelUpload st file sheet
  | AddMapping m => App.handleAddMapping st m
  | RemoveLastMapping => App.handleRemoveLastMapping st
  | TypeFilename s => setCustomFilename st s
  | ChangeField index value => changeFilenameField st index value
  | RemoveField index => removeFilenameField st index
  | AddField => addFilenameField st
  end.

Definition step (st : App.State) (a : Action) : App.State :=
  if available st a then handle st a else st.

(** The state the page opens in. *)
Definition init : App.State :=
  {| App.pdfFile := None;
     App.excelFile := None;
     App.excelData := [];
     App.excelColumns := [];
     App.mappings := [];
     App.customFilename := "";
     App.selectedFilenameFields := [] |}.

Definition run (actions : list Action) : App.State := fold_left step actions init.

End Handlers.

(** ** Characters of a file name *)

Module Chars.

(** No dot and no slash among the characters. *)
Definition plain (chars : list Ascii.ascii) : Prop :=
  Forall (fun c => c <> "."%char /\ c <> "/"%char) chars.

End Chars.

(** ** More of what a trace holds *)

Module Trace.

Import Browser.

(** The pauses between downloads, in milliseconds. *)
Definition pauses (t : list Event) : list Z :=
  omap (fun e => match e with SetTimeout ms => Some ms | _ => None end) t.

(** The addresses requested. *)
Definition fetches (t : list Event) : list string :=
  omap (fun e => match e with Fetch url => Some url | _ => None end) t.

(** The files decoded. *)
Definition loads (t : list Event) : list string :=
  omap (fun e => match e with Load file => Some file | _ => None end) t.

End Trace.

(** * Properties *)

(** ** The registry: [handleAddMapping], [handleRemoveLastMapping] *)

Section Registry.

Context {A : Type}.

Lemma slice_drop_last (l : list A) (a : A) : JS.slice (l ++ [a]) 0 (-1) = l.
Proof.
  unfold JS.slice. rewrite length_app. cbn [length].
  replace (0 <? 0) with false by reflexivity.
  replace (-1 <? 0) with true by reflexivity.
  replace (Z.min 0 (Z.of_nat (length l + 1))) with 0 by lia.
  replace (Z.max (Z.of_nat (length l + 1) + -1) 0 - 0)
    with (Z.of_nat (length l)) by lia.
  rewrite Nat2Z.id. cbn [Z.to_nat drop]. apply take_app_length.
Qed.

Lemma slice_nil : JS.slice (@nil A) 0 (-1) = [].
Proof. reflexivity. Qed.

Lemma nonempty_snoc (l : list A) :
  (1 <= length l)%nat -> exists front a, l = front ++ [a].
Proof.
  destruct l as [|b l] using rev_ind; cbn; [lia|]. intros _. eauto.
Qed.

End Registry.

(** C9.  Undoing on a registry of [N >= 1] mappings leaves the [N - 1]
    mappings that came before the most recently added one, in their order;
    in particular it undoes the last [handleAddMapping].  On the empty
    registry it changes nothing. *)
Theorem handleRemoveLastMapping_pops (st : App.State) :
  ((1 <= length (App.mappings st))%nat ->
     exists last,
       App.mappings st = App.mappings (App.handleRemoveLastMapping st) ++ [last]
       /\ length (App.mappings (App.handleRemoveLastMapping st))
          = (length (App.mappings st) - 1)%nat)
  /\ (forall m,
        App.mappings (App.handleRemoveLastMapping (App.handleAddMapping st m))
        = App.mappings st)
  /\ (App.mappings st = [] -> App.handleRemoveLastMapping st = st).
Proof.
  split; [|split].
  - intros HN. destruct (nonempty_snoc _ HN) as (front & a & E).
    exists a. cbn. rewrite E, slice_drop_last, length_app. cbn. split; [done|lia].
  - intros m. cbn. apply slice_drop_last.
  - intros E. destruct st; cbn in *; subst. reflexivity.
Qed.

Lemma handleRemoveLastMapping_pops_witness :
  exists last,
    [Sample.amount; Sample.name_on_page_3]
    = App.mappings
        (App.handleRemoveLastMapping
           (Sample.state [] [Sample.amount; Sample.name_on_page_3])) ++ [last]
    /\ length
         (App.mappings
            (App.handleRemoveLastMapping
               (Sample.state [] [Sample.amount; Sample.name_on_page_3])))
       = 1%nat.
Proof.
  apply (handleRemoveLastMapping_pops
           (Sample.state [] [Sample.amount; Sample.name_on_page_3])).
  cbn. lia.
Defined.

(** The earlier revision has the same two handlers. *)
Lemma handleRemoveLastMapping_pops_part000 (st : Part000.State) m :
  Part000.mappings (Part000.handleRemoveLastMapping (Part000.handleAddMapping st m))
  = Part000.mappings st.
Proof. cbn. apply slice_drop_last. Qed.

(** ** The coordinate mapper of [PDFViewer.tsx] *)

Section Mapper.

Local Open Scope Q_scope.

Lemma Math_round_upper (q : Q) : inject_Z (JS.Math_round q) <= q + (1 # 2).
Proof. apply Qfloor_le. Qed.

Lemma Math_round_lower (q : Q) : q - (1 # 2) < inject_Z (JS.Math_round q).
Proof.
  unfold JS.Math_round.
  pose proof (Qlt_floor (q + (1 # 2))) as H.
  rewrite inject_Z_plus in H.
  apply Qplus_lt_l with (z := 1).
  eapply Qle_lt_trans; [|exact H]. ring_simplify.
  apply Qplus_le_r. discriminate.
Qed.



Lemma toRaster_toDocument_near (p s : Q) :
  0 < s ->
  Qabs (PDFViewer.toRaster (PDFViewer.toDocument p s) s - p) <= s / 2.
Proof.
  intros Hs. unfold PDFViewer.toRaster, PDFViewer.toDocument.
  assert (Hn : ~ s == 0) by (intros E; rewrite E in Hs; discriminate).
  pose proof (Math_round_upper (p / s)) as Hu.
  pose proof (Math_round_lower (p / s)) as Hl.
  set (r := inject_Z (JS.Math_round (p / s))) in *.
  apply Qlt_le_weak in Hl.
  apply (Qmult_le_compat_r _ _ s) in Hl, Hu; try now apply Qlt_le_weak.
  assert (El : (p / s - (1 # 2)) * s == p - s / 2) by (field; exact Hn).
  assert (Eu : (p / s + (1 # 2)) * s == p + s / 2) by (field; exact Hn).
  rewrite El in Hl. rewrite Eu in Hu.
  set (t := r * s) in *.
  apply Qabs_Qle_condition. split; lra.
Qed.


End Mapper.



(** In the viewer: a click with a field selected is overlaid within
    [scale / 2] of where it was made. *)
Lemma click_overlay_near (selectedField : string) (currentPage : Z)
    (px py : Q) (m : types.FieldMapping) :
  PDFViewer.handleCanvasClick selectedField currentPage px py = Some m ->
  exists ox oy,
    PDFViewer.overlay [m] currentPage = [(ox, oy)]
    /\ (Qabs (ox - px) <= PDFViewer.scale / 2)%Q
    /\ (Qabs (oy - py) <= PDFViewer.scale / 2)%Q.
Proof.
  unfold PDFViewer.handleCanvasClick.
  destruct (JS.Boolean selectedField); [|discriminate].
  intros [= <-]. unfold PDFViewer.overlay.
  rewrite filter_cons_True by reflexivity. cbn.
  eexists _, _. split; [reflexivity|].
  split; now apply toRaster_toDocument_near.
Qed.


(** ** The filename composer *)

Lemma join_concat (sep : string) (l : list string) :
  JS.join sep l = String.concat sep l.
Proof.
  induction l as [|s [|s' l] IH]; [reflexivity..|].
  change (s +:+ sep +:+ JS.join sep (s' :: l)
          = s +:+ sep +:+ String.concat sep (s' :: l)).
  now rewrite IH.
Qed.

Lemma Boolean_nonempty (s : string) : Is_true (JS.Boolean s) <-> s <> "".
Proof. destruct s; cbn; intuition congruence. Qed.

Lemma composeFilename_compose (base : string) (values : list string) :
  App.composeFilename base values = Spec.compose base values.
Proof.
  unfold App.composeFilename, Spec.compose.
  rewrite (list_filter_iff _ (fun v => v <> "")) by apply Boolean_nonempty.
  destruct (filter _ values) as [|v kept]; [reflexivity|].
  cbn [length Nat.ltb Nat.leb]. now rewrite join_concat.
Qed.

(** The composer of [App.tsx] does what C2 says: the empty values are
    discarded; when some remain the filename is the base, a dash, the
    remaining values joined by dashes and [.pdf]; when none remains it is
    the base and [.pdf]. *)
Theorem composeFilename_cases (base : string) (values : list string) :
  App.composeFilename base values = Spec.compose base values
  /\ (filter (fun v => v <> "") values <> [] ->
      App.composeFilename base values
      = base +:+ "-" +:+ String.concat "-" (filter (fun v => v <> "") values)
             +:+ ".pdf")
  /\ (filter (fun v => v <> "") values = [] ->
      App.composeFilename base values = base +:+ ".pdf").
Proof.
  rewrite composeFilename_compose. unfold Spec.compose.
  destruct (filter _ values) as [|v kept]; repeat split; congruence.
Qed.

Lemma composeFilename_shape (base : string) (values : list string) :
  exists middle, App.composeFilename base values = base +:+ middle +:+ ".pdf".
Proof.
  unfold App.composeFilename.
  destruct (0 <? length _)%nat.
  - now exists ("-" +:+ JS.join "-" (filter (fun v => Is_true (JS.Boolean v)) values)).
  - now exists "".
Qed.

(** The earlier revision has one filename field and no discarding: with a
    value it agrees with the composer on the name of the template, without
    one it leaves the dash. *)
Lemma newFilename_part000 (pdf : Browser.File) (row : types.ExcelData)
    (filenameField : string) :
  Part000.newFilename pdf row filenameField
  = Replace.replace_first ".pdf" "" (Browser.name pdf)
    +:+ "-" +:+ Part000.cellText row filenameField +:+ ".pdf".
Proof. reflexivity. Qed.

Example newFilename_part000_somchai :
  Part000.newFilename Sample.template_pdf Sample.somchai "Name"
  = "template-Somchai.pdf"
  /\ Part000.newFilename Sample.template_pdf Sample.somchai ""
     = "template-.pdf".
Proof. split; vm_compute; reflexivity. Qed.

Lemma composeFilename_cases_witness :
  App.composeFilename "invoice" [""; "Somchai"; ""; "500"]
  = "invoice-Somchai-500.pdf"
  /\ App.composeFilename "invoice" [""; ""] = "invoice.pdf".
Proof.
  split.
  - apply (composeFilename_cases "invoice" [""; "Somchai"; ""; "500"]).
    vm_compute. discriminate.
  - apply (composeFilename_cases "invoice" [""; ""]).
    vm_compute. reflexivity.
Defined.

(** ** The loop over the mappings *)

Lemma index_Some {A} (arr : list A) (i : Z) (a : A) :
  JS.index arr i = Some a <-> 0 <= i /\ arr !! Z.to_nat i = Some a.
Proof.
  unfold JS.index. destruct (Z.ltb_spec i 0); split.
  - discriminate.
  - intros [? _]. lia.
  - intros E. split; [lia|exact E].
  - now intros [_ E].
Qed.

Lemma index_None_onPage (pages : PDFLib.PDFDocument) (m : types.FieldMapping) :
  JS.index pages (types.page m - 1) = None <-> Stamping.onPage (length pages) m = false.
Proof.
  unfold JS.index, Stamping.onPage.
  destruct (Z.ltb_spec (types.page m - 1) 0) as [Hlt|Hge].
  - replace (1 <=? types.page m) with false by (symmetry; apply Z.leb_gt; lia).
    tauto.
  - replace (1 <=? types.page m) with true by (symmetry; apply Z.leb_le; lia).
    cbn [andb]. rewrite lookup_ge_None, Z.leb_gt. lia.
Qed.

Section StampingFacts.

Import types PDFLib Browser.

Variable options : Q -> FieldMapping -> Stamp.
Variable missing : FieldMapping -> list Event.

Lemma stamped_nil (i : nat) (p : PDFPage) : Stamping.stamped options [] i p = p.
Proof. destruct p. unfold Stamping.stamped. cbn. now rewrite app_nil_r. Qed.

Lemma stamped_app (ms1 ms2 : list FieldMapping) (i : nat) (p : PDFPage) :
  Stamping.stamped options ms2 i (Stamping.stamped options ms1 i p)
  = Stamping.stamped options (ms1 ++ ms2) i p.
Proof.
  unfold Stamping.stamped. cbn. f_equal.
  now rewrite filter_app, map_app, app_assoc.
Qed.

Lemma stamped_other (m : FieldMapping) (i : nat) (p : PDFPage) :
  page m <> Z.of_nat i + 1 -> Stamping.stamped options [m] i p = p.
Proof.
  intros Hne. unfold Stamping.stamped.
  rewrite filter_cons_False by exact Hne.
  apply stamped_nil.
Qed.

Lemma stamped_here (m : FieldMapping) (i : nat) (p : PDFPage) :
  page m = Z.of_nat i + 1 ->
  Stamping.stamped options [m] i p = drawText p (options (height p) m).
Proof.
  intros He. unfold Stamping.stamped.
  now rewrite filter_cons_True by exact He.
Qed.

Lemma drawMapping_lookup (pages : PDFDocument) (m : FieldMapping) (i : nat) :
  fst (Stamping.drawMapping options missing pages m) !! i
  = Stamping.stamped options [m] i <$> pages !! i.
Proof.
  unfold Stamping.drawMapping.
  destruct (JS.index pages (page m - 1)) as [p0|] eqn:E; cbn [fst].
  - apply index_Some in E as [Hge E].
    destruct (decide (Z.to_nat (page m - 1) = i)) as [<-|Hne].
    + rewrite list_lookup_alter_eq, E. cbn. f_equal.
      symmetry. apply stamped_here. lia.
    + rewrite list_lookup_alter_ne by exact Hne.
      destruct (pages !! i) as [p|]; [|reflexivity]. cbn. f_equal.
      symmetry. apply stamped_other. lia.
  - destruct (pages !! i) as [p|] eqn:Ei; [|reflexivity]. cbn. f_equal.
    symmetry. apply stamped_other. intros He.
    assert (JS.index pages (page m - 1) = Some p) as E'.
    { apply index_Some. split; [lia|].
      now replace (Z.to_nat (page m - 1)) with i by lia. }
    congruence.
Qed.

(** After the loop every page holds what it held, followed by one stamp for
    each mapping that names it, in the order of the mappings. *)
Lemma drawMappings_lookup (ms : list FieldMapping) (pages : PDFDocument) (i : nat) :
  fst (Stamping.drawMappings options missing pages ms) !! i
  = Stamping.stamped options ms i <$> pages !! i.
Proof.
  revert pages. induction ms as [|m rest IH]; intros pages.
  - cbn. destruct (pages !! i); [|reflexivity]. cbn. now rewrite stamped_nil.
  - cbn [Stamping.drawMappings].
    pose proof (drawMapping_lookup pages m i) as H1.
    destruct (Stamping.drawMapping options missing pages m) as [pages1 log1].
    specialize (IH pages1).
    destruct (Stamping.drawMappings options missing pages1 rest) as [pages2 log2].
    cbn [fst] in *. rewrite IH, H1.
    destruct (pages !! i) as [p|]; [|reflexivity]. cbn.
    now rewrite (stamped_app [m] rest).
Qed.

Lemma drawMappings_length (ms : list FieldMapping) (pages : PDFDocument) :
  length (fst (Stamping.drawMappings options missing pages ms)) = length pages.
Proof.
  destruct (Nat.lt_trichotomy
              (length (fst (Stamping.drawMappings options missing pages ms)))
              (length pages)) as [H|[H|H]]; [|exact H|].
  - apply lookup_lt_is_Some in H as [p Hp].
    pose proof (drawMappings_lookup ms pages
                  (length (fst (Stamping.drawMappings options missing pages ms)))) as E.
    rewrite lookup_ge_None_2, Hp in E by lia. discriminate.
  - apply lookup_lt_is_Some in H as [p Hp].
    pose proof (drawMappings_lookup ms pages (length pages)) as E.
    rewrite Hp, lookup_ge_None_2 in E by lia. discriminate.
Qed.

(** What the loop logs: the message of every mapping whose page is missing. *)
Lemma drawMappings_log (ms : list FieldMapping) (pages : PDFDocument) :
  snd (Stamping.drawMappings options missing pages ms)
  = concat (map (fun m => if Stamping.onPage (length pages) m
                          then [] else missing m) ms).
Proof.
  revert pages. induction ms as [|m rest IH]; intros pages; [reflexivity|].
  cbn [Stamping.drawMappings map concat]. unfold Stamping.drawMapping.
  pose proof (index_None_onPage pages m) as Hm.
  destruct (JS.index pages (page m - 1)) as [p0|].
  - destruct (Stamping.onPage (length pages) m);
      [|now destruct Hm as [_ Hm]; specialize (Hm eq_refl)].
    specialize (IH (alter (fun p => drawText p (options (height p) m))
                          (Z.to_nat (page m - 1)) pages)).
    destruct (Stamping.drawMappings _ _ _ rest) as [pages2 log2].
    cbn [snd] in *. rewrite IH, length_alter. reflexivity.
  - rewrite (proj1 Hm eq_refl). specialize (IH pages).
    destruct (Stamping.drawMappings _ _ _ rest) as [pages2 log2].
    cbn [snd] in *. now rewrite IH.
Qed.

End StampingFacts.

(** ** Runs of the pipeline *)

Section Runs.

Import types PDFLib Browser.

Lemma for_of_returns {A B} (l : list A) (body : A -> Eff B)
    (log : A -> list Event) (res : A -> B) :
  (forall a, body a = (log a, Some (res a))) ->
  for_of l body = (concat (map log l), Some (map res l)).
Proof.
  intros Hbody. induction l as [|a l IH]; [reflexivity|].
  cbn [for_of map concat]. rewrite Hbody, IH. unfold bind, ret.
  now rewrite app_nil_r.
Qed.

Lemma for_of_throws {A B} (a : A) (l : list A) (body : A -> Eff B)
    (log : list Event) :
  body a = (log, None) -> for_of (a :: l) body = (log, None).
Proof. intros Hbody. cbn [for_of]. now rewrite Hbody. Qed.

Lemma copyPages_suffix (before doc : PDFDocument) :
  copyPages (before ++ doc) (seq (length before) (length doc)) = doc.
Proof.
  unfold copyPages. revert before.
  induction doc as [|p doc IH]; intros before; [reflexivity|].
  cbn [length seq]. change (omap ?f (?a :: ?l))
    with (match f a with Some b => b :: omap f l | None => omap f l end).
  cbv beta. rewrite list_lookup_middle by reflexivity.
  f_equal. specialize (IH (before ++ [p])).
  rewrite <- app_assoc, length_app, Nat.add_1_r in IH. exact IH.
Qed.

Lemma copyPages_all (doc : PDFDocument) :
  copyPages doc (pageIndices (getPageCount doc)) = doc.
Proof. apply (copyPages_suffix [] doc). Qed.

Lemma downloads_downloadAll (l : list GeneratedDocument) :
  downloads (App.downloadAll l) = l.
Proof.
  induction l as [|d [|d' l] IH]; [reflexivity..|].
  change (d :: downloads (App.downloadAll (d' :: l)) = d :: d' :: l).
  now rewrite IH.
Qed.

Lemma alerts_downloadAll (l : list GeneratedDocument) :
  alerts (App.downloadAll l) = [].
Proof.
  induction l as [|d [|d' l] IH]; [reflexivity..|].
  change (alerts (App.downloadAll (d' :: l)) = []). exact IH.
Qed.

Lemma console_downloadAll (l : list GeneratedDocument) :
  console (App.downloadAll l) = [].
Proof.
  induction l as [|d [|d' l] IH]; [reflexivity..|].
  change (console (App.downloadAll (d' :: l)) = []). exact IH.
Qed.

(** The log of the mappings loop holds console messages only. *)
Lemma downloads_stamping_log options (ms : list FieldMapping) (pages : PDFDocument)
    (missing : FieldMapping -> list Event) :
  (forall m, downloads (missing m) = [] /\ alerts (missing m) = []) ->
  downloads (snd (Stamping.drawMappings options missing pages ms)) = []
  /\ alerts (snd (Stamping.drawMappings options missing pages ms)) = [].
Proof.
  intros Hm. rewrite drawMappings_log.
  induction ms as [|m ms [IHd IHa]]; [done|].
  cbn [map concat]. unfold downloads, alerts in *. rewrite !omap_app, IHd, IHa.
  destruct (Stamping.onPage _ m); [done|].
  destruct (Hm m) as [-> ->]. done.
Qed.

Lemma concat_quiet {A} (rows : list A) (log : A -> list Event) :
  (forall a, downloads (log a) = [] /\ alerts (log a) = []) ->
  downloads (concat (map log rows)) = [] /\ alerts (concat (map log rows)) = [].
Proof.
  intros H. induction rows as [|a rows [IHd IHa]]; [done|].
  cbn [map concat]. unfold downloads, alerts in *. rewrite !omap_app, IHd, IHa.
  destruct (H a) as [-> ->]. done.
Qed.

End Runs.

(** ** Runs of [App.generatePDFs] *)

Section AppRuns.

Import types PDFLib Browser.

Variable w : World.
Variable st : App.State.

Lemma guard_passes {A B} (rows : list A) (ms : list B) :
  rows <> [] -> ms <> [] ->
  (length rows =? 0)%nat || (length ms =? 0)%nat = false.
Proof. destruct rows, ms; done. Qed.

Lemma App_generateOne_returns fontBytes customFont pdfDoc row :
  embedFont w fontBytes = Some customFont ->
  App.generateOne w st fontBytes pdfDoc row
  = (snd (App.rowPages customFont pdfDoc st row),
     Some (App.rowDocument customFont pdfDoc st row)).
Proof.
  intros E. unfold App.generateOne, await, bind, emit, ret. rewrite E.
  cbn. now rewrite app_nil_r.
Qed.

Lemma App_generateOne_throws fontBytes pdfDoc row :
  embedFont w fontBytes = None ->
  App.generateOne w st fontBytes pdfDoc row = ([], None).
Proof. intros E. unfold App.generateOne, await, bind. now rewrite E. Qed.

(** A run in which nothing throws. *)
Lemma App_generatePDFs_completes pdf fontBytes pdfDoc customFont :
  App.pdfFile st = Some pdf ->
  App.excelData st <> [] ->
  App.mappings st <> [] ->
  fetch w App.fontUrl = Some fontBytes ->
  PDFDocument_load w (data pdf) = Some pdfDoc ->
  embedFont w fontBytes = Some customFont ->
  App.generatePDFs w st
  = [Fetch App.fontUrl; Load (name pdf)]
    ++ concat (map (fun row => snd (App.rowPages customFont pdfDoc st row))
                   (App.excelData st))
    ++ App.downloadAll (map (App.rowDocument customFont pdfDoc st)
                            (App.excelData st)).
Proof.
  intros Hpdf Hrows Hms Hfetch Hload Hembed.
  unfold App.generatePDFs. rewrite Hpdf, guard_passes by assumption.
  unfold bind, await, emit. rewrite Hfetch, Hload. cbv beta iota.
  rewrite (for_of_returns _ _
             (fun row => snd (App.rowPages customFont pdfDoc st row))
             (App.rowDocument customFont pdfDoc st))
    by (intros row; now apply App_generateOne_returns).
  reflexivity.
Qed.

(** A run in which the font, the template or the embedding fails ends in the
    [catch] block before anything is downloaded. *)
Lemma App_generatePDFs_aborts pdf :
  App.pdfFile st = Some pdf ->
  App.excelData st <> [] ->
  App.mappings st <> [] ->
  (fetch w App.fontUrl = None
   \/ PDFDocument_load w (data pdf) = None
   \/ (exists fontBytes, fetch w App.fontUrl = Some fontBytes
                         /\ embedFont w fontBytes = None)) ->
  downloads (App.generatePDFs w st) = []
  /\ alerts (App.generatePDFs w st)
     = ["Error generating PDFs. Please check the console for details."].
Proof.
  intros Hpdf Hrows Hms Hfail.
  unfold App.generatePDFs. rewrite Hpdf, guard_passes by assumption.
  unfold bind, await, emit.
  destruct (fetch w App.fontUrl) as [fontBytes|] eqn:Hfetch; [|done].
  destruct (PDFDocument_load w (data pdf)) as [pdfDoc|] eqn:Hload; [|done].
  destruct Hfail as [?|[?|(fb & [= <-] & Hembed)]]; [done..|].
  destruct (App.excelData st) as [|row rows]; [done|].
  rewrite (for_of_throws row rows _ []) by now apply App_generateOne_throws.
  done.
Qed.

End AppRuns.

(** ** The batch: one document per row, in the order of the rows *)

Section Batch.

Import types PDFLib Browser.

Lemma pageNotFound_quiet (m : FieldMapping) :
  downloads (App.pageNotFound m) = [] /\ alerts (App.pageNotFound m) = [].
Proof. done. Qed.

Lemma App_row_log_quiet customFont pdfDoc st row :
  downloads (snd (App.rowPages customFont pdfDoc st row)) = []
  /\ alerts (snd (App.rowPages customFont pdfDoc st row)) = [].
Proof.
  unfold App.rowPages, App.drawMappings.
  apply downloads_stamping_log, pageNotFound_quiet.
Qed.

Lemma App_generatePDFs_downloads w st pdf fontBytes pdfDoc customFont :
  App.pdfFile st = Some pdf ->
  App.mappings st <> [] ->
  fetch w App.fontUrl = Some fontBytes ->
  PDFDocument_load w (data pdf) = Some pdfDoc ->
  embedFont w fontBytes = Some customFont ->
  downloads (App.generatePDFs w st)
  = map (App.rowDocument customFont pdfDoc st) (App.excelData st)
  /\ alerts (App.generatePDFs w st) = [].
Proof.
  intros Hpdf Hms Hfetch Hload Hembed.
  destruct (decide (App.excelData st = [])) as [E|Hrows].
  - unfold App.generatePDFs. rewrite Hpdf, E. done.
  - rewrite (App_generatePDFs_completes w st pdf fontBytes pdfDoc customFont)
      by assumption.
    destruct (concat_quiet (App.excelData st)
                (fun row => snd (App.rowPages customFont pdfDoc st row)))
      as [Hd Ha]; [intros row; apply App_row_log_quiet|].
    unfold downloads, alerts in *. rewrite !omap_app, Hd, Ha.
    fold (downloads (App.downloadAll
                       (map (App.rowDocument customFont pdfDoc st)
                            (App.excelData st)))).
    fold (alerts (App.downloadAll
                    (map (App.rowDocument customFont pdfDoc st)
                         (App.excelData st)))).
    now rewrite downloads_downloadAll, alerts_downloadAll.
Qed.

End Batch.

(** C1.  With a template that is there and decodes, a font that is fetched
    and embeds and at least one mapping, a run over [K] rows downloads [K]
    documents and the [i]-th download is the document of the [i]-th row:
    the template pages stamped with the values of that row, under the
    filename composed from that row. *)
Theorem generatePDFs_one_document_per_row
    (w : Browser.World) (st : App.State) (pdf : Browser.File)
    (fontBytes : list Byte.byte) (pdfDoc : PDFLib.PDFDocument)
    (customFont : PDFLib.PDFFont) :
  App.pdfFile st = Some pdf ->
  App.mappings st <> [] ->
  Browser.fetch w App.fontUrl = Some fontBytes ->
  Browser.PDFDocument_load w (Browser.data pdf) = Some pdfDoc ->
  Browser.embedFont w fontBytes = Some customFont ->
  length (Browser.downloads (App.generatePDFs w st)) = length (App.excelData st)
  /\ forall i row,
       App.excelData st !! i = Some row ->
       Browser.downloads (App.generatePDFs w st) !! i
       = Some (App.rowDocument customFont pdfDoc st row).
Proof.
  intros Hpdf Hms Hfetch Hload Hembed.
  destruct (App_generatePDFs_downloads w st pdf fontBytes pdfDoc customFont)
    as [-> _]; try assumption.
  split.
  - apply length_map.
  - intros i row Hrow. rewrite list_lookup_fmap, Hrow. reflexivity.
Qed.

Lemma generatePDFs_one_document_per_row_witness :
  length (Browser.downloads
            (App.generatePDFs (Sample.online [Sample.a4])
               (Sample.state [Sample.somchai; Sample.malee] [Sample.amount])))
  = 2%nat
  /\ forall i row,
       [Sample.somchai; Sample.malee] !! i = Some row ->
       Browser.downloads
         (App.generatePDFs (Sample.online [Sample.a4])
            (Sample.state [Sample.somchai; Sample.malee] [Sample.amount])) !! i
       = Some (App.rowDocument Sample.font [Sample.a4]
                 (Sample.state [Sample.somchai; Sample.malee] [Sample.amount])
                 row).
Proof.
  apply (generatePDFs_one_document_per_row
           (Sample.online [Sample.a4])
           (Sample.state [Sample.somchai; Sample.malee] [Sample.amount])
           Sample.template_pdf [] [Sample.a4] Sample.font);
    [reflexivity|discriminate|reflexivity..].
Defined.

(** ** Where a value is stamped *)

(** The earlier revision draws at [mapping.x] itself, and at the same
    height. *)
Lemma stamp_position_part000
    (customFont : PDFLib.PDFFont) (row : types.ExcelData) (height : Q)
    (m : types.FieldMapping) :
  PDFLib.at_x (Part000.stampFor customFont row height m) = types.x m
  /\ PDFLib.at_y (Part000.stampFor customFont row height m)
     = (height - types.y m - 5)%Q.
Proof. split; reflexivity. Qed.

(** ** A mapping whose page is missing *)

Section MissingPage.

Import types PDFLib Browser.

Variable options : Q -> FieldMapping -> Stamp.

Lemma stamped_onPage (n : nat) (ms : list FieldMapping) (i : nat) (p : PDFPage) :
  (i < n)%nat ->
  Stamping.stamped options (filter (fun m => Is_true (Stamping.onPage n m)) ms) i p
  = Stamping.stamped options ms i p.
Proof.
  intros Hi. unfold Stamping.stamped. do 3 f_equal.
  rewrite list_filter_filter. apply list_filter_iff. intros m.
  unfold Stamping.onPage. rewrite andb_True, !Is_true_true, !Z.leb_le. lia.
Qed.

(** The pages come out as if the mappings with a missing page were not in
    the set at all. *)
Lemma drawMappings_onPage missing missing' (ms : list FieldMapping)
    (pages : PDFDocument) :
  fst (Stamping.drawMappings options missing pages ms)
  = fst (Stamping.drawMappings options missing' pages
           (filter (fun m => Is_true (Stamping.onPage (length pages) m)) ms)).
Proof.
  apply list_eq. intros i. rewrite !drawMappings_lookup.
  destruct (pages !! i) as [p|] eqn:Hp; [|reflexivity]. cbn.
  now rewrite stamped_onPage by (eapply lookup_lt_Some; eassumption).
Qed.

Lemma beyond_last_page (n : nat) (m : FieldMapping) :
  Z.of_nat n < page m -> Stamping.onPage n m = false.
Proof.
  intros H. unfold Stamping.onPage. apply andb_false_iff. right.
  apply Z.leb_gt. exact H.
Qed.

Lemma drawMapping_beyond missing (pages : PDFDocument) (m : FieldMapping) :
  Z.of_nat (length pages) < page m ->
  Stamping.drawMapping options missing pages m = (pages, missing m).
Proof.
  intros H. unfold Stamping.drawMapping.
  now rewrite (proj2 (index_None_onPage pages m) (beyond_last_page _ _ H)).
Qed.

Lemma drawMappings_logs_missing missing (ms : list FieldMapping)
    (pages : PDFDocument) (m : FieldMapping) (e : Event) :
  m ∈ ms -> Stamping.onPage (length pages) m = false -> e ∈ missing m ->
  e ∈ snd (Stamping.drawMappings options missing pages ms).
Proof.
  intros Hm Hoff He. rewrite drawMappings_log.
  apply list_elem_of_In, in_concat. exists (missing m). split.
  - apply in_map_iff. exists m. rewrite Hoff. split; [reflexivity|].
    now apply list_elem_of_In.
  - now apply list_elem_of_In.
Qed.

End MissingPage.

(** ** Failures *)

(** C7.  When the font cannot be fetched (or what was fetched cannot be
    embedded) or the template cannot be decoded, the run ends with the alert
    and nothing is downloaded.  Whatever happens, a run downloads either
    nothing or the documents of all rows. *)
Theorem fatal_error_downloads_nothing (w : Browser.World) (st : App.State) :
  (forall pdf,
      App.pdfFile st = Some pdf ->
      App.excelData st <> [] ->
      App.mappings st <> [] ->
      Browser.fetch w App.fontUrl = None
      \/ Browser.PDFDocument_load w (Browser.data pdf) = None
      \/ (exists fontBytes,
            Browser.fetch w App.fontUrl = Some fontBytes
            /\ Browser.embedFont w fontBytes = None) ->
      Browser.downloads (App.generatePDFs w st) = []
      /\ Browser.alerts (App.generatePDFs w st)
         = ["Error generating PDFs. Please check the console for details."])
  /\ (Browser.downloads (App.generatePDFs w st) = []
      \/ exists customFont pdfDoc,
           Browser.downloads (App.generatePDFs w st)
           = map (App.rowDocument customFont pdfDoc st) (App.excelData st)).
Proof.
  split.
  - intros pdf Hpdf Hrows Hms Hfail.
    now apply (App_generatePDFs_aborts w st pdf).
  - destruct (App.pdfFile st) as [pdf|] eqn:Hpdf;
      [|left; unfold App.generatePDFs; now rewrite Hpdf].
    destruct (decide (App.excelData st = [])) as [Hrows|Hrows];
      [left; unfold App.generatePDFs; now rewrite Hpdf, Hrows|].
    destruct (decide (App.mappings st = [])) as [Hms|Hms];
      [left; unfold App.generatePDFs; rewrite Hpdf, Hms;
       now destruct (App.excelData st)|].
    destruct (Browser.fetch w App.fontUrl) as [fontBytes|] eqn:Hfetch;
      [|left; apply (App_generatePDFs_aborts w st pdf); tauto].
    destruct (Browser.PDFDocument_load w (Browser.data pdf)) as [pdfDoc|] eqn:Hload;
      [|left; apply (App_generatePDFs_aborts w st pdf); tauto].
    destruct (Browser.embedFont w fontBytes) as [customFont|] eqn:Hembed;
      [|left; apply (App_generatePDFs_aborts w st pdf); eauto 6].
    right. exists customFont, pdfDoc.
    now apply (App_generatePDFs_downloads w st pdf fontBytes).
Qed.

Lemma fatal_error_downloads_nothing_witness :
  (Browser.downloads
     (App.generatePDFs (Sample.offline [Sample.a4])
        (Sample.state [Sample.somchai; Sample.malee] [Sample.amount])) = []
   /\ Browser.alerts
        (App.generatePDFs (Sample.offline [Sample.a4])
           (Sample.state [Sample.somchai; Sample.malee] [Sample.amount]))
      = ["Error generating PDFs. Please check the console for details."])
  /\ (Browser.downloads
        (App.generatePDFs Sample.undecodable
           (Sample.state [Sample.somchai; Sample.malee] [Sample.amount])) = []
      /\ Browser.alerts
           (App.generatePDFs Sample.undecodable
              (Sample.state [Sample.somchai; Sample.malee] [Sample.amount]))
         = ["Error generating PDFs. Please check the console for details."]).
Proof.
  split.
  - apply (proj1 (fatal_error_downloads_nothing (Sample.offline [Sample.a4])
                    (Sample.state [Sample.somchai; Sample.malee] [Sample.amount]))
             Sample.template_pdf);
      [reflexivity|discriminate|discriminate|left; reflexivity].
  - apply (proj1 (fatal_error_downloads_nothing Sample.undecodable
                    (Sample.state [Sample.somchai; Sample.malee] [Sample.amount]))
             Sample.template_pdf);
      [reflexivity|discriminate|discriminate|right; left; reflexivity].
Defined.

(** C10.  Without a template, without rows or without mappings the run does
    nothing at all: no fetch, no decoding, no message, no download. *)
Theorem generatePDFs_guard (w : Browser.World) (st : App.State) :
  App.pdfFile st = None \/ App.excelData st = [] \/ App.mappings st = [] ->
  App.generatePDFs w st = [].
Proof.
  intros [H|[H|H]]; unfold App.generatePDFs; rewrite H.
  - reflexivity.
  - now destruct (App.pdfFile st).
  - destruct (App.pdfFile st); [|reflexivity].
    now destruct (App.excelData st).
Qed.

Lemma generatePDFs_guard_witness :
  App.generatePDFs (Sample.online [Sample.a4])
    (Sample.state [Sample.somchai] []) = [].
Proof.
  apply generatePDFs_guard. right. right. reflexivity.
Defined.

(** ** Runs of the earlier revision, [Part000.generatePDFs] *)

Section Part000Runs.

Import types PDFLib Browser.

Variable w : World.
Variable st : Part000.State.

Lemma Part000_generateOne_returns pdf fontBytes customFont pdfDoc row :
  embedFont w fontBytes = Some customFont ->
  Part000.generateOne w st pdf fontBytes pdfDoc row
  = (snd (Part000.rowPages customFont pdfDoc st row)
     ++ [Download (Part000.rowDocument customFont pdfDoc st pdf row)],
     Some tt).
Proof.
  intros E. unfold Part000.generateOne, await, bind, emit. now rewrite E.
Qed.

Lemma Part000_generateOne_throws pdf fontBytes pdfDoc row :
  embedFont w fontBytes = None ->
  Part000.generateOne w st pdf fontBytes pdfDoc row = ([], None).
Proof. intros E. unfold Part000.generateOne, await, bind. now rewrite E. Qed.

Lemma Part000_generatePDFs_completes pdf fontBytes pdfDoc customFont :
  Part000.pdfFile st = Some pdf ->
  Part000.excelData st <> [] ->
  Part000.mappings st <> [] ->
  fetch w App.fontUrl = Some fontBytes ->
  PDFDocument_load w (data pdf) = Some pdfDoc ->
  embedFont w fontBytes = Some customFont ->
  Part000.generatePDFs w st
  = [Fetch App.fontUrl; Load (name pdf)]
    ++ concat (map (fun row =>
                      snd (Part000.rowPages customFont pdfDoc st row)
                      ++ [Download (Part000.rowDocument customFont pdfDoc st pdf row)])
                   (Part000.excelData st)).
Proof.
  intros Hpdf Hrows Hms Hfetch Hload Hembed.
  unfold Part000.generatePDFs. rewrite Hpdf, guard_passes by assumption.
  unfold bind, await, emit. rewrite Hfetch, Hload. cbv beta iota.
  rewrite (for_of_returns _ _
             (fun row =>
                snd (Part000.rowPages customFont pdfDoc st row)
                ++ [Download (Part000.rowDocument customFont pdfDoc st pdf row)])
             (fun _ => tt))
    by (intros row; now apply Part000_generateOne_returns).
  cbn. now rewrite app_nil_r.
Qed.

Lemma Part000_row_log_quiet customFont pdfDoc row :
  downloads (snd (Part000.rowPages customFont pdfDoc st row)) = [].
Proof.
  unfold Part000.rowPages, Part000.drawUnawaited, Part000.drawAwaited.
  pose proof (downloads_stamping_log (Part000.stampFor customFont row)
                (Part000.mappings st)
                (copyPages pdfDoc (pageIndices (getPageCount pdfDoc)))
                Part000.pageNotFound (fun m => conj eq_refl eq_refl)) as [H1 _].
  destruct (Stamping.drawMappings _ Part000.pageNotFound _ _) as [pages1 log1].
  pose proof (downloads_stamping_log (Part000.stampFor customFont row)
                (Part000.mappings st) pages1
                (fun _ => []) (fun m => conj eq_refl eq_refl)) as [H2 _].
  destruct (Stamping.drawMappings _ (fun _ => []) _ _) as [pages2 log2].
  cbn [snd] in *. unfold downloads in *. now rewrite omap_app, H1, H2.
Qed.

Lemma Part000_downloads_rows customFont pdfDoc pdf (rows : list ExcelData) :
  downloads
    (concat (map (fun row =>
                    snd (Part000.rowPages customFont pdfDoc st row)
                    ++ [Download (Part000.rowDocument customFont pdfDoc st pdf row)])
                 rows))
  = map (Part000.rowDocument customFont pdfDoc st pdf) rows.
Proof.
  induction rows as [|row rows IH]; [reflexivity|].
  cbn [map concat]. unfold downloads in *. rewrite !omap_app, IH.
  fold (downloads (snd (Part000.rowPages customFont pdfDoc st row))).
  now rewrite Part000_row_log_quiet.
Qed.

(** The earlier revision, too, downloads one document per row, in the order
    of the rows. *)
Lemma generatePDFs_one_document_per_row_part000 pdf fontBytes pdfDoc customFont :
  Part000.pdfFile st = Some pdf ->
  Part000.mappings st <> [] ->
  fetch w App.fontUrl = Some fontBytes ->
  PDFDocument_load w (data pdf) = Some pdfDoc ->
  embedFont w fontBytes = Some customFont ->
  downloads (Part000.generatePDFs w st)
  = map (Part000.rowDocument customFont pdfDoc st pdf) (Part000.excelData st).
Proof.
  intros Hpdf Hms Hfetch Hload Hembed.
  destruct (decide (Part000.excelData st = [])) as [E|Hrows].
  - unfold Part000.generatePDFs. rewrite Hpdf, E. done.
  - rewrite (Part000_generatePDFs_completes pdf fontBytes pdfDoc customFont)
      by assumption.
    apply Part000_downloads_rows.
Qed.

(** It ends in the same [catch] block when the font or the template fails. *)
Lemma fatal_error_downloads_nothing_part000 pdf :
  Part000.pdfFile st = Some pdf ->
  Part000.excelData st <> [] ->
  Part000.mappings st <> [] ->
  fetch w App.fontUrl = None \/ PDFDocument_load w (data pdf) = None ->
  downloads (Part000.generatePDFs w st) = []
  /\ alerts (Part000.generatePDFs w st)
     = ["Error generating PDFs. Please check the console for details."].
Proof.
  intros Hpdf Hrows Hms Hfail.
  unfold Part000.generatePDFs. rewrite Hpdf, guard_passes by assumption.
  unfold bind, await, emit.
  destruct (fetch w App.fontUrl) as [fontBytes|] eqn:Hfetch; [|done].
  destruct (PDFDocument_load w (data pdf)) as [pdfDoc|] eqn:Hload; [|done].
  destruct Hfail; done.
Qed.

(** It has the same guard. *)
Lemma generatePDFs_guard_part000 :
  Part000.pdfFile st = None \/ Part000.excelData st = []
  \/ Part000.mappings st = [] ->
  Part000.generatePDFs w st = [].
Proof.
  intros [H|[H|H]]; unfold Part000.generatePDFs; rewrite H.
  - reflexivity.
  - now destruct (Part000.pdfFile st).
  - destruct (Part000.pdfFile st); [|reflexivity].
    now destruct (Part000.excelData st).
Qed.

(** Its two loops leave every mapping on the page twice. *)
Lemma rowPages_part000_twice customFont pdfDoc row (i : nat) :
  fst (Part000.rowPages customFont pdfDoc st row) !! i
  = Stamping.stamped (Part000.stampFor customFont row)
      (Part000.mappings st ++ Part000.mappings st) i <$> pdfDoc !! i.
Proof.
  unfold Part000.rowPages, Part000.drawUnawaited, Part000.drawAwaited.
  rewrite copyPages_all.
  pose proof (drawMappings_lookup (Part000.stampFor customFont row)
                Part000.pageNotFound (Part000.mappings st) pdfDoc i) as H1.
  destruct (Stamping.drawMappings _ Part000.pageNotFound _ _) as [pages1 log1].
  pose proof (drawMappings_lookup (Part000.stampFor customFont row)
                (fun _ => []) (Part000.mappings st) pages1 i) as H2.
  destruct (Stamping.drawMappings _ (fun _ => []) _ _) as [pages2 log2].
  cbn [fst] in *. rewrite H2, H1.
  destruct (pdfDoc !! i) as [p|]; [|reflexivity]. cbn.
  now rewrite stamped_app.
Qed.

End Part000Runs.

(** [App.tsx] leaves every mapping on its page once. *)
Lemma rowPages_once customFont pdfDoc st row (i : nat) :
  fst (App.rowPages customFont pdfDoc st row) !! i
  = Stamping.stamped (App.stampFor customFont row) (App.mappings st) i
      <$> pdfDoc !! i.
Proof.
  unfold App.rowPages, App.drawMappings.
  now rewrite copyPages_all, drawMappings_lookup.
Qed.

(** ** The text of a cell *)

Lemma cellText_absent (row : types.ExcelData) (field : string) :
  row !! field = None -> App.cellText row field = "".
Proof. intros E. unfold App.cellText. now rewrite E. Qed.

Lemma cellText_truthy (row : types.ExcelData) (field : string) (v : JS.value) :
  row !! field = Some v -> JS.truthy v = true ->
  App.cellText row field = JS.String v.
Proof. intros E Ht. unfold App.cellText, JS.or_empty. now rewrite E, Ht. Qed.

Lemma cellText_falsy (row : types.ExcelData) (field : string) (v : JS.value) :
  row !! field = Some v -> JS.truthy v = false -> App.cellText row field = "".
Proof. intros E Ht. unfold App.cellText, JS.or_empty. now rewrite E, Ht. Qed.

Lemma cellText_part000 (row : types.ExcelData) (field : string) :
  Part000.cellText row field = App.cellText row field.
Proof. reflexivity. Qed.

(** C3, at a row whose [Amount] is the number 0: the field is in the row and
    [String(0)] is ["0"], yet both revisions stamp the empty string. *)
Theorem zero_cell_is_stamped_blank :
  Sample.malee !! "Amount" = Some (JS.Num 0)
  /\ JS.String (JS.Num 0) = "0"
  /\ App.cellText Sample.malee "Amount" = ""
  /\ map (fun d => map PDFLib.text
                     (PDFLib.stamps (PDFLib.saved (Browser.bytes d))))
         (Browser.downloads
            (App.generatePDFs (Sample.online [Sample.a4])
               (Sample.state [Sample.malee] [Sample.amount])))
     = [[""]]
  /\ map (fun d => map PDFLib.text
                     (PDFLib.stamps (PDFLib.saved (Browser.bytes d))))
         (Browser.downloads
            (Part000.generatePDFs (Sample.online [Sample.a4])
               (Sample.state000 [Sample.malee] [Sample.amount])))
     = [[""; ""]].
Proof. repeat split; vm_compute; reflexivity. Qed.

(** ** How often a mapping is drawn *)

(** C6, at one row, one mapping and a template of one page: the document
    downloaded by the earlier revision carries the value twice, the one
    downloaded by [App.tsx] once. *)
Theorem part000_stamps_twice :
  map (fun d => map PDFLib.text
                  (PDFLib.stamps (PDFLib.saved (Browser.bytes d))))
      (Browser.downloads
         (Part000.generatePDFs (Sample.online [Sample.a4])
            (Sample.state000 [Sample.somchai] [Sample.amount])))
  = [["500"; "500"]]
  /\ map (fun d => map PDFLib.text
                     (PDFLib.stamps (PDFLib.saved (Browser.bytes d))))
         (Browser.downloads
            (App.generatePDFs (Sample.online [Sample.a4])
               (Sample.state [Sample.somchai] [Sample.amount])))
     = [["500"]].
Proof. split; vm_compute; reflexivity. Qed.

(** * Further properties of the sources *)

(** ** The base of the filename: [Replace.strip_extension] *)

Section StripExtension.

Local Open Scope char_scope.

Lemma chars_append (a b : string) :
  String.list_ascii_of_string (a +:+ b)
  = String.list_ascii_of_string a ++ String.list_ascii_of_string b.
Proof.
  induction a as [|c a IH]; [reflexivity|].
  change (c :: String.list_ascii_of_string (a +:+ b)
          = c :: (String.list_ascii_of_string a ++ String.list_ascii_of_string b)).
  now rewrite IH.
Qed.

Lemma extension_from_end_plain (e rest : list Ascii.ascii) (seen : nat) :
  Chars.plain e ->
  Replace.extension_from_end (e ++ "." :: rest) seen
  = match (seen + length e)%nat with
    | O => None
    | S _ => Some (S (seen + length e))
    end.
Proof.
  intros He. revert seen. induction He as [|c e [Hdot Hslash] _ IH]; intros seen.
  - cbn. now rewrite Nat.add_0_r.
  - cbn [app Replace.extension_from_end length].
    rewrite (proj2 (Ascii.eqb_neq _ _) Hdot), (proj2 (Ascii.eqb_neq _ _) Hslash).
    rewrite IH. now rewrite Nat.add_succ_r.
Qed.

Lemma extension_from_end_Some (l : list Ascii.ascii) (seen n : nat) :
  Replace.extension_from_end l seen = Some n ->
  exists e rest,
    l = e ++ "." :: rest /\ Chars.plain e /\ n = S (seen + length e)
    /\ (0 < seen + length e)%nat.
Proof.
  revert seen. induction l as [|c l IH]; intros seen; [discriminate|].
  cbn [Replace.extension_from_end].
  destruct (Ascii.eqb_spec c ".") as [->|Hdot].
  - destruct seen as [|seen]; [discriminate|]. intros [= <-].
    exists [], l. repeat split; [apply List.Forall_nil|cbn; lia|lia].
  - destruct (Ascii.eqb_spec c "/") as [->|Hslash]; [discriminate|].
    intros H. apply IH in H as (e & rest & -> & He & -> & Hpos).
    exists (c :: e), rest. repeat split.
    + now apply List.Forall_cons.
    + cbn. lia.
    + cbn. lia.
Qed.

End StripExtension.

Lemma string_of_chars_app (l k : list Ascii.ascii) :
  String.string_of_list_ascii (l ++ k)
  = String.string_of_list_ascii l +:+ String.string_of_list_ascii k.
Proof.
  induction l as [|c l IH]; [reflexivity|].
  change (String c (String.string_of_list_ascii (l ++ k))
          = String c (String.string_of_list_ascii l +:+ String.string_of_list_ascii k)).
  now rewrite IH.
Qed.

Lemma strip_extension_stem (stem e : list Ascii.ascii) :
  e <> [] -> Chars.plain e ->
  Replace.strip_extension
    (String.string_of_list_ascii (stem ++ "."%char :: e))
  = String.string_of_list_ascii stem.
Proof.
  intros Hne He. unfold Replace.strip_extension.
  rewrite String.list_ascii_of_string_of_list_ascii.
  rewrite rev_app_distr. cbn [rev]. rewrite <- app_assoc. cbn [app].
  rewrite extension_from_end_plain by (now apply Forall_rev).
  rewrite length_rev. destruct e as [|c e]; [done|]. cbn [length Nat.add].
  f_equal. apply take_app_length'. rewrite length_app. cbn [length]. lia.
Qed.

(** X1.  A name that ends in a dot followed by at least one character, none
    of them a dot or a slash, loses exactly that ending. *)
Theorem strip_extension_strips (stem ext : string) :
  ext <> "" ->
  Chars.plain (String.list_ascii_of_string ext) ->
  Replace.strip_extension (stem +:+ "." +:+ ext) = stem.
Proof.
  intros Hne Hplain.
  rewrite <- (String.string_of_list_ascii_of_string (stem +:+ "." +:+ ext)).
  rewrite !chars_append. cbn [String.list_ascii_of_string app].
  rewrite strip_extension_stem.
  - apply String.string_of_list_ascii_of_string.
  - destruct ext; [done|discriminate].
  - exact Hplain.
Qed.

Lemma strip_extension_strips_witness :
  Replace.strip_extension ("rows.2024" +:+ "." +:+ "xlsx") = "rows.2024".
Proof.
  apply strip_extension_strips; [discriminate|].
  repeat (apply List.Forall_cons; [split; discriminate|]). apply List.Forall_nil.
Defined.

(** X2.  Whatever the name, it is either left as it is, or it is a stem, a
    dot and a non-empty run of characters without dot or slash, and the stem
    is what is left: never more than the last extension goes, and nothing
    goes from a name whose last dot is its last character or has a slash
    after it. *)
Theorem strip_extension_cases (name : string) :
  Replace.strip_extension name = name
  \/ exists stem ext,
       name = stem +:+ "." +:+ ext
       /\ ext <> ""
       /\ Chars.plain (String.list_ascii_of_string ext)
       /\ Replace.strip_extension name = stem.
Proof.
  destruct (Replace.extension_from_end
              (rev (String.list_ascii_of_string name)) 0) as [n|] eqn:E.
  - right. apply extension_from_end_Some in E as (e & rest & Hrev & He & -> & Hpos).
    assert (Hchars : String.list_ascii_of_string name
                     = rev rest ++ "."%char :: rev e).
    { rewrite <- (rev_involutive (String.list_ascii_of_string name)), Hrev.
      rewrite rev_app_distr. cbn [rev]. now rewrite <- app_assoc. }
    assert (Hname : name = String.string_of_list_ascii (rev rest ++ "."%char :: rev e)).
    { now rewrite <- Hchars, String.string_of_list_ascii_of_string. }
    exists (String.string_of_list_ascii (rev rest)),
           (String.string_of_list_ascii (rev e)).
    assert (Hne : rev e <> []).
    { intros H. apply (f_equal length) in H. rewrite length_rev in H.
      cbn in *. lia. }
    repeat split.
    + rewrite Hname at 1. now rewrite string_of_chars_app.
    + intros H. apply (f_equal String.list_ascii_of_string) in H.
      now rewrite String.list_ascii_of_string_of_list_ascii in H.
    + rewrite String.list_ascii_of_string_of_list_ascii. now apply Forall_rev.
    + rewrite Hname. apply strip_extension_stem; [exact Hne|now apply Forall_rev].
  - left. unfold Replace.strip_extension. now rewrite E.
Qed.

(** ** The name of the template in the earlier revision: [Replace.replace_first] *)

Lemma replace_first_unfold (pattern by_ s : string) :
  Replace.replace_first pattern by_ s
  = if String.prefix pattern s then
      by_ +:+ String.string_of_list_ascii
                (drop (String.length pattern) (String.list_ascii_of_string s))
    else
      match s with
      | EmptyString => EmptyString
      | String c rest => String c (Replace.replace_first pattern by_ rest)
      end.
Proof. now destruct s. Qed.

Lemma prefix_append (p post : string) : String.prefix p (p +:+ post) = true.
Proof.
  induction p as [|c p IH]; [now destruct post|].
  change (match Ascii.ascii_dec c c with
          | left _ => String.prefix p (p +:+ post)
          | right _ => false
          end = true).
  destruct (Ascii.ascii_dec c c); [exact IH|congruence].
Qed.

Lemma prefix_split (p s : string) :
  String.prefix p s = true -> exists post, s = p +:+ post.
Proof.
  revert s. induction p as [|c p IH]; intros s H; [now exists s|].
  destruct s as [|d s]; [discriminate|]. cbn in H.
  destruct (Ascii.ascii_dec c d) as [->|Hne]; [|discriminate].
  apply IH in H as [post ->]. now exists post.
Qed.

Lemma chars_length (s : string) :
  length (String.list_ascii_of_string s) = String.length s.
Proof. induction s as [|c s IH]; cbn; [reflexivity|now rewrite IH]. Qed.

(** X3.  When the pattern occurs, its first occurrence is what is replaced,
    wherever it stands in the string. *)
Theorem replace_first_occurrence (pattern by_ before after : string) :
  (forall b1 b2,
      before = b1 +:+ b2 -> b2 <> "" ->
      String.prefix pattern (b2 +:+ pattern +:+ after) = false) ->
  Replace.replace_first pattern by_ (before +:+ pattern +:+ after)
  = before +:+ by_ +:+ after.
Proof.
  induction before as [|c before IH]; intros Hfirst.
  - change (Replace.replace_first pattern by_ (pattern +:+ after) = by_ +:+ after).
    rewrite replace_first_unfold, prefix_append, chars_append.
    rewrite <- chars_length, drop_app_length.
    now rewrite String.string_of_list_ascii_of_string.
  - rewrite replace_first_unfold.
    rewrite (Hfirst "" (String c before)) by done.
    change (String c (Replace.replace_first pattern by_ (before +:+ pattern +:+ after))
            = String c (before +:+ by_ +:+ after)).
    rewrite IH; [reflexivity|].
    intros b1 b2 -> Hb2. now apply (Hfirst (String c b1) b2).
Qed.

Lemma replace_first_occurrence_witness :
  Replace.replace_first ".pdf" "" ("form" +:+ ".pdf" +:+ ".signed.pdf")
  = "form" +:+ "" +:+ ".signed.pdf".
Proof.
  apply replace_first_occurrence. intros b1 b2 E Hb2.
  do 5 (destruct b1 as [|? b1];
        [change ("" +:+ b2) with b2 in E; subst b2;
         first [reflexivity | now destruct Hb2]
        |change (String ?a b1 +:+ b2) with (String a (b1 +:+ b2)) in E;
         first [discriminate E | injection E as <- E]]).
Defined.

(** X4.  When the pattern does not occur, the string is left as it is. *)
Theorem replace_first_absent (pattern by_ s : string) :
  (forall before after, s <> before +:+ pattern +:+ after) ->
  Replace.replace_first pattern by_ s = s.
Proof.
  induction s as [|c s IH]; intros Habsent.
  - rewrite replace_first_unfold.
    destruct (String.prefix pattern "") eqn:E; [|reflexivity].
    apply prefix_split in E as [post E]. now destruct (Habsent "" post).
  - rewrite replace_first_unfold.
    destruct (String.prefix pattern (String c s)) eqn:E.
    + apply prefix_split in E as [post E]. now destruct (Habsent "" post).
    + f_equal. apply IH. intros before after ->.
      now apply (Habsent (String c before) after).
Qed.

Lemma replace_first_absent_witness :
  Replace.replace_first ".pdf" "" "FORM.PDF" = "FORM.PDF".
Proof.
  apply replace_first_absent. intros before after E.
  do 9 (destruct before as [|? before];
        [vm_compute in E; discriminate E
        |change (String ?a before +:+ ?x) with (String a (before +:+ x)) in E;
         first [discriminate E | injection E as <- E]]).
Defined.

(** ** What a run does besides downloading *)

Section TraceFacts.

Import types PDFLib Browser.

(** An event list that holds console messages only. *)
Lemma console_only_projections (t : list Event) :
  Forall (fun e => exists msg, e = ConsoleError msg) t ->
  Trace.pauses t = [] /\ Trace.fetches t = [] /\ Trace.loads t = []
  /\ downloads t = [] /\ alerts t = [].
Proof.
  induction 1 as [|e t [msg ->] _ IH]; [done|].
  destruct IH as (? & ? & ? & ? & ?). cbn. done.
Qed.

Lemma stamping_log_console options (missing : FieldMapping -> list Event)
    (ms : list FieldMapping) (pages : PDFDocument) :
  (forall m, Forall (fun e => exists msg, e = ConsoleError msg) (missing m)) ->
  Forall (fun e => exists msg, e = ConsoleError msg)
         (snd (Stamping.drawMappings options missing pages ms)).
Proof.
  intros Hm. rewrite drawMappings_log.
  induction ms as [|m ms IH]; [constructor|].
  cbn [map concat]. apply Forall_app. split; [|exact IH].
  destruct (Stamping.onPage _ m); [constructor|apply Hm].
Qed.

Lemma App_row_log_console customFont pdfDoc st row :
  Forall (fun e => exists msg, e = ConsoleError msg)
         (snd (App.rowPages customFont pdfDoc st row)).
Proof.
  unfold App.rowPages, App.drawMappings. apply stamping_log_console.
  intros m. repeat constructor. eauto.
Qed.

Lemma App_rows_log_console customFont pdfDoc st (rows : list ExcelData) :
  Forall (fun e => exists msg, e = ConsoleError msg)
         (concat (map (fun row => snd (App.rowPages customFont pdfDoc st row)) rows)).
Proof.
  induction rows as [|row rows IH]; [constructor|].
  cbn [map concat]. apply Forall_app. split; [apply App_row_log_console|exact IH].
Qed.

Lemma pauses_downloadAll (l : list GeneratedDocument) :
  Trace.pauses (App.downloadAll l) = replicate (length l - 1) 500.
Proof.
  induction l as [|d [|d' l] IH]; [reflexivity..|].
  change (500 :: Trace.pauses (App.downloadAll (d' :: l))
          = replicate (length (d :: d' :: l) - 1) 500).
  rewrite IH. cbn [length Nat.sub]. now rewrite Nat.sub_0_r.
Qed.

Lemma last_downloadAll (l : list GeneratedDocument) :
  last (App.downloadAll l) = Download <$> last l.
Proof.
  induction l as [|d [|d' l] IH]; [reflexivity..|].
  change (App.downloadAll (d :: d' :: l))
    with (Download d :: SetTimeout 500 :: App.downloadAll (d' :: l)).
  rewrite !last_cons_cons, (last_cons (SetTimeout 500)), IH.
  destruct (last (d' :: l)) eqn:E; [reflexivity|].
  now apply last_None in E.
Qed.

Lemma projections_downloadAll (l : list GeneratedDocument) :
  Trace.fetches (App.downloadAll l) = [] /\ Trace.loads (App.downloadAll l) = [].
Proof.
  induction l as [|d [|d' l] IH]; [done..|].
  change (Trace.fetches (App.downloadAll (d' :: l)) = []
          /\ Trace.loads (App.downloadAll (d' :: l)) = []).
  exact IH.
Qed.

End TraceFacts.

(** X5.  A run in which nothing fails pauses 500 ms between one download
    and the next, [K - 1] times for [K] rows, and ends on the download of the
    last row: there is no pause after it. *)
Theorem downloads_are_paced
    (w : Browser.World) (st : App.State) (pdf : Browser.File)
    (fontBytes : list Byte.byte) (pdfDoc : PDFLib.PDFDocument)
    (customFont : PDFLib.PDFFont) :
  App.pdfFile st = Some pdf ->
  App.mappings st <> [] ->
  Browser.fetch w App.fontUrl = Some fontBytes ->
  Browser.PDFDocument_load w (Browser.data pdf) = Some pdfDoc ->
  Browser.embedFont w fontBytes = Some customFont ->
  Trace.pauses (App.generatePDFs w st)
  = replicate (length (App.excelData st) - 1) 500
  /\ last (App.generatePDFs w st)
     = (fun row => Browser.Download (App.rowDocument customFont pdfDoc st row))
         <$> last (App.excelData st).
Proof.
  intros Hpdf Hms Hfetch Hload Hembed.
  destruct (decide (App.excelData st = [])) as [E|Hrows].
  - unfold App.generatePDFs. rewrite Hpdf, E. done.
  - rewrite (App_generatePDFs_completes w st pdf fontBytes pdfDoc customFont)
      by assumption.
    destruct (console_only_projections _
                (App_rows_log_console customFont pdfDoc st (App.excelData st)))
      as (Hp & _).
    split.
    + unfold Trace.pauses in *. rewrite !omap_app, Hp.
      fold (Trace.pauses (App.downloadAll
                            (map (App.rowDocument customFont pdfDoc st)
                                 (App.excelData st)))).
      rewrite pauses_downloadAll, length_map. reflexivity.
    + rewrite !app_assoc, last_app, last_downloadAll.
      destruct (App.excelData st) as [|row rows] eqn:Erows; [done|].
      rewrite <- Erows. rewrite fmap_last. destruct (last (App.excelData st)) eqn:El.
      * reflexivity.
      * rewrite Erows in El. now apply last_None in El.
Qed.

Lemma downloads_are_paced_witness :
  Trace.pauses
    (App.generatePDFs (Sample.online [Sample.a4])
       (Sample.state [Sample.somchai; Sample.malee; Sample.somchai]
          [Sample.amount]))
  = [500; 500].
Proof.
  apply (downloads_are_paced
           (Sample.online [Sample.a4])
           (Sample.state [Sample.somchai; Sample.malee; Sample.somchai]
              [Sample.amount])
           Sample.template_pdf [] [Sample.a4] Sample.font);
    [reflexivity|discriminate|reflexivity..].
Defined.

(** X6.  A run that gets past the guard asks for the font once, however many
    rows there are and whatever fails afterwards, and decodes the template
    once, and only when the font has arrived. *)
Theorem font_is_fetched_once
    (w : Browser.World) (st : App.State) (pdf : Browser.File) :
  App.pdfFile st = Some pdf ->
  App.excelData st <> [] ->
  App.mappings st <> [] ->
  Trace.fetches (App.generatePDFs w st) = [App.fontUrl]
  /\ Trace.loads (App.generatePDFs w st)
     = match Browser.fetch w App.fontUrl with
       | Some _ => [Browser.name pdf]
       | None => []
       end.
Proof.
  intros Hpdf Hrows Hms.
  unfold App.generatePDFs. rewrite Hpdf, guard_passes by assumption.
  unfold Browser.bind, Browser.await, Browser.emit.
  destruct (Browser.fetch w App.fontUrl) as [fontBytes|] eqn:Hfetch; [|done].
  destruct (Browser.PDFDocument_load w (Browser.data pdf)) as [pdfDoc|] eqn:Hload;
    [|done].
  destruct (Browser.embedFont w fontBytes) as [customFont|] eqn:Hembed.
  - rewrite (for_of_returns _ _
               (fun row => snd (App.rowPages customFont pdfDoc st row))
               (App.rowDocument customFont pdfDoc st))
      by (intros row; now apply App_generateOne_returns).
    cbv beta iota.
    destruct (console_only_projections _
                (App_rows_log_console customFont pdfDoc st (App.excelData st)))
      as (_ & Hf & Hl & _).
    destruct (projections_downloadAll
                (map (App.rowDocument customFont pdfDoc st) (App.excelData st)))
      as [Hf' Hl'].
    unfold Browser.trace, Browser.try_catch, fst.
    unfold Trace.fetches, Trace.loads in *.
    rewrite !omap_app, Hf, Hl, Hf', Hl'. done.
  - destruct (App.excelData st) as [|row rows]; [done|].
    rewrite (for_of_throws row rows _ []) by now apply App_generateOne_throws.
    done.
Qed.

Lemma font_is_fetched_once_witness :
  Trace.fetches
    (App.generatePDFs (Sample.online [Sample.a4])
       (Sample.state [Sample.somchai; Sample.malee] [Sample.amount]))
  = [App.fontUrl]
  /\ Trace.loads
       (App.generatePDFs Sample.undecodable
          (Sample.state [Sample.somchai; Sample.malee] [Sample.amount]))
     = ["template.pdf"].
Proof.
  split.
  - apply (font_is_fetched_once (Sample.online [Sample.a4])
             (Sample.state [Sample.somchai; Sample.malee] [Sample.amount])
             Sample.template_pdf); [reflexivity|discriminate|discriminate].
  - apply (font_is_fetched_once Sample.undecodable
             (Sample.state [Sample.somchai; Sample.malee] [Sample.amount])
             Sample.template_pdf); [reflexivity|discriminate|discriminate].
Defined.

Lemma console_stamping_log options (ms : list types.FieldMapping)
    (pages : PDFLib.PDFDocument) (message : types.FieldMapping -> string) :
  Browser.console
    (snd (Stamping.drawMappings options
            (fun m => [Browser.ConsoleError (message m)]) pages ms))
  = map message
        (filter (fun m => ~ Is_true (Stamping.onPage (length pages) m)) ms).
Proof.
  rewrite drawMappings_log.
  induction ms as [|m ms IH]; [reflexivity|].
  cbn [map concat]. unfold Browser.console in *. rewrite omap_app, IH.
  destruct (Stamping.onPage (length pages) m) eqn:E.
  - rewrite filter_cons_False; [reflexivity|]. rewrite E. cbn. tauto.
  - rewrite filter_cons_True; [reflexivity|]. rewrite E. cbn. tauto.
Qed.

Lemma console_rows customFont pdfDoc (st : App.State)
    (rows : list types.ExcelData) :
  Browser.console
    (concat (map (fun row => snd (App.rowPages customFont pdfDoc st row)) rows))
  = concat
      (map (fun _ =>
              map (fun m => "Page "
                            +:+ NilZero.string_of_int (Z.to_int (types.page m))
                            +:+ " not found")
                  (filter (fun m => ~ Is_true
                             (Stamping.onPage (PDFLib.getPageCount pdfDoc) m))
                          (App.mappings st)))
           rows).
Proof.
  induction rows as [|row rows IH]; [reflexivity|].
  cbn [map concat]. unfold Browser.console in *. rewrite omap_app, IH.
  f_equal. unfold App.rowPages, App.drawMappings, App.pageNotFound.
  rewrite copyPages_all.
  apply (console_stamping_log _ _ _
           (fun m => "Page " +:+ NilZero.string_of_int (Z.to_int (types.page m))
                     +:+ " not found")).
Qed.

(** X7.  In a run in which nothing fails the console holds, row after row,
    one [Page N not found] for each mapping whose page the template does not
    have, in the order of the mappings, and nothing else. *)
Theorem console_of_a_run
    (w : Browser.World) (st : App.State) (pdf : Browser.File)
    (fontBytes : list Byte.byte) (pdfDoc : PDFLib.PDFDocument)
    (customFont : PDFLib.PDFFont) :
  App.pdfFile st = Some pdf ->
  App.mappings st <> [] ->
  Browser.fetch w App.fontUrl = Some fontBytes ->
  Browser.PDFDocument_load w (Browser.data pdf) = Some pdfDoc ->
  Browser.embedFont w fontBytes = Some customFont ->
  Browser.console (App.generatePDFs w st)
  = concat
      (map (fun _ =>
              map (fun m => "Page "
                            +:+ NilZero.string_of_int (Z.to_int (types.page m))
                            +:+ " not found")
                  (filter (fun m => ~ Is_true
                             (Stamping.onPage (PDFLib.getPageCount pdfDoc) m))
                          (App.mappings st)))
           (App.excelData st)).
Proof.
  intros Hpdf Hms Hfetch Hload Hembed.
  destruct (decide (App.excelData st = [])) as [E|Hrows].
  - unfold App.generatePDFs. rewrite Hpdf, E. done.
  - rewrite (App_generatePDFs_completes w st pdf fontBytes pdfDoc customFont)
      by assumption.
    rewrite <- (console_rows customFont pdfDoc st).
    unfold Browser.console. rewrite !omap_app.
    fold (Browser.console (App.downloadAll
                             (map (App.rowDocument customFont pdfDoc st)
                                  (App.excelData st)))).
    rewrite console_downloadAll, app_nil_r. reflexivity.
Qed.

Lemma console_of_a_run_witness :
  Browser.console
    (App.generatePDFs (Sample.online [Sample.a4; Sample.a4])
       (Sample.state [Sample.somchai; Sample.malee]
          [Sample.amount; Sample.name_on_page_3]))
  = ["Page 3 not found"; "Page 3 not found"].
Proof.
  rewrite (console_of_a_run (Sample.online [Sample.a4; Sample.a4])
             (Sample.state [Sample.somchai; Sample.malee]
                [Sample.amount; Sample.name_on_page_3])
             Sample.template_pdf [] [Sample.a4; Sample.a4] Sample.font);
    [reflexivity|reflexivity|discriminate|reflexivity..].
Defined.

(** X8.  Stamping keeps the pages of the template: the document of a row
    has as many pages, each of the size it had and beginning with the text
    it held; and a page that no mapping names comes out as it went in. *)
Theorem stamping_keeps_pages
    (customFont : PDFLib.PDFFont) (pdfDoc : PDFLib.PDFDocument)
    (st : App.State) (row : types.ExcelData) :
  length (fst (App.rowPages customFont pdfDoc st row)) = length pdfDoc
  /\ forall i p q,
       pdfDoc !! i = Some p ->
       fst (App.rowPages customFont pdfDoc st row) !! i = Some q ->
       PDFLib.width q = PDFLib.width p
       /\ PDFLib.height q = PDFLib.height p
       /\ PDFLib.content p `prefix_of` PDFLib.content q
       /\ ((forall m, m ∈ App.mappings st -> types.page m <> Z.of_nat i + 1) ->
           q = p).
Proof.
  split.
  - unfold App.rowPages, App.drawMappings.
    now rewrite drawMappings_length, copyPages_all.
  - intros i p q Hp Hq. rewrite rowPages_once, Hp in Hq. injection Hq as <-.
    repeat split.
    + now eexists.
    + intros Hnone. unfold Stamping.stamped.
      replace (filter _ (App.mappings st)) with (@nil types.FieldMapping).
      * destruct p. cbn. now rewrite app_nil_r.
      * symmetry. induction (App.mappings st) as [|m ms IH]; [reflexivity|].
        rewrite filter_cons_False by (apply Hnone; left).
        apply IH. intros m' Hm'. apply Hnone. now right.
Qed.

Lemma stamping_keeps_pages_witness :
  fst (App.rowPages Sample.font [Sample.a4; Sample.a4]
         (Sample.state [Sample.somchai] [Sample.amount]) Sample.somchai) !! 1%nat
  = Some Sample.a4.
Proof.
  destruct (stamping_keeps_pages Sample.font [Sample.a4; Sample.a4]
              (Sample.state [Sample.somchai] [Sample.amount]) Sample.somchai)
    as [Hlen Hpages].
  destruct (fst (App.rowPages Sample.font [Sample.a4; Sample.a4]
                   (Sample.state [Sample.somchai] [Sample.amount])
                   Sample.somchai) !! 1%nat) as [q|] eqn:E.
  - f_equal. apply (Hpages 1%nat Sample.a4 q eq_refl E).
    intros m Hm. apply list_elem_of_singleton in Hm. subst m. discriminate.
  - apply lookup_ge_None in E. rewrite Hlen in E. cbn in E. lia.
Defined.

(** ** Turning the pages of the viewer *)

Section ViewerFacts.

Import types.

(** X9.  [changePage] keeps the number of pages and never leaves the range
    from 1 to that number: it moves by [delta] when that lands in the
    range, and otherwise stays where it is. *)
Theorem changePage_in_range (st : Viewer.State) (delta : Z) :
  Viewer.totalPages (Viewer.changePage st delta) = Viewer.totalPages st
  /\ (Viewer.changePage st delta = st
      \/ (Viewer.currentPage (Viewer.changePage st delta)
          = Viewer.currentPage st + delta
          /\ 1 <= Viewer.currentPage (Viewer.changePage st delta)
             <= Viewer.totalPages st))
  /\ (1 <= Viewer.currentPage st <= Viewer.totalPages st ->
      1 <= Viewer.currentPage (Viewer.changePage st delta)
        <= Viewer.totalPages st).
Proof.
  unfold Viewer.changePage.
  destruct (Z.leb_spec 1 (Viewer.currentPage st + delta));
    destruct (Z.leb_spec (Viewer.currentPage st + delta) (Viewer.totalPages st));
    cbn; repeat split; auto; try lia; right; lia.
Qed.

Lemma changePage_in_range_witness :
  1 <= Viewer.currentPage
         (Viewer.changePage (Viewer.loadPDF Viewer.init 3) 5) <= 3.
Proof.
  apply (changePage_in_range (Viewer.loadPDF Viewer.init 3) 5).
  cbn. lia.
Defined.

Lemma changePage_stays (st : Viewer.State) (delta : Z) :
  1 <= Viewer.currentPage st <= Viewer.totalPages st ->
  1 <= Viewer.currentPage (Viewer.changePage st delta) <= Viewer.totalPages st
  /\ Viewer.totalPages (Viewer.changePage st delta) = Viewer.totalPages st.
Proof.
  intros H. unfold Viewer.changePage.
  destruct (Z.leb_spec 1 (Viewer.currentPage st + delta));
    destruct (Z.leb_spec (Viewer.currentPage st + delta) (Viewer.totalPages st));
    cbn; split; auto; lia.
Qed.

Lemma step_in_range (st : Viewer.State) (a : Viewer.Action) :
  1 <= Viewer.currentPage st <= Viewer.totalPages st ->
  1 <= Viewer.currentPage (Viewer.step st a) <= Viewer.totalPages st
  /\ Viewer.totalPages (Viewer.step st a) = Viewer.totalPages st.
Proof.
  intros H. destruct a; cbn [Viewer.step].
  - done.
  - done.
  - destruct (Viewer.previousDisabled st); [done|].
    now apply changePage_stays.
  - destruct (Viewer.nextDisabled st); [done|].
    now apply changePage_stays.
Qed.

Lemma run_in_range (actions : list Viewer.Action) (st : Viewer.State) :
  1 <= Viewer.currentPage st <= Viewer.totalPages st ->
  1 <= Viewer.currentPage (Viewer.run st actions) <= Viewer.totalPages st
  /\ Viewer.totalPages (Viewer.run st actions) = Viewer.totalPages st.
Proof.
  revert st. induction actions as [|a actions IH]; intros st H; [done|].
  cbn [Viewer.run fold_left]. fold (Viewer.run (Viewer.step st a) actions).
  destruct (step_in_range st a H) as [H1 E1].
  rewrite <- E1 in H1. destruct (IH _ H1) as [H2 E2].
  rewrite E1 in *. done.
Qed.

(** X10.  While one template of [n >= 1] pages is loaded, whatever the user
    selects, points at or pages through, the current page stays between 1
    and [n]; so a click then gives a mapping with a named field, whole
    coordinates and a page the template has. *)
Theorem clicks_land_on_a_page
    (n : nat) (actions : list Viewer.Action) (px py : Q) (m : FieldMapping) :
  (1 <= n)%nat ->
  Viewer.handleCanvasClick
    (Viewer.run (Viewer.loadPDF Viewer.init n) actions) px py = Some m ->
  Stamping.onPage n m = true
  /\ field m <> ""
  /\ (exists zx zy, x m = inject_Z zx /\ y m = inject_Z zy).
Proof.
  intros Hn Hclick.
  destruct (run_in_range actions (Viewer.loadPDF Viewer.init n)) as [Hr Ht];
    [cbn; lia|].
  cbn [Viewer.loadPDF Viewer.totalPages] in Hr.
  unfold Viewer.handleCanvasClick, PDFViewer.handleCanvasClick in Hclick.
  destruct (Viewer.selectedField _) as [|c f] eqn:Ef; [discriminate|].
  cbn [JS.Boolean] in Hclick. injection Hclick as <-. cbn.
  repeat split.
  - unfold Stamping.onPage. cbn. apply andb_true_iff. split; apply Z.leb_le; lia.
  - discriminate.
  - eauto.
Qed.

Lemma clicks_land_on_a_page_witness :
  Stamping.onPage 3
    {| x := PDFViewer.toDocument 100 PDFViewer.scale;
       y := PDFViewer.toDocument 40 PDFViewer.scale;
       field := "Name";
       page := 2 |} = true.
Proof.
  apply (clicks_land_on_a_page 3
           [Viewer.Select "Name"; Viewer.Next; Viewer.Next; Viewer.Next;
            Viewer.Previous]
           100 40); [lia|reflexivity].
Defined.

(** X11.  Away from the last page, Next followed by Previous brings the
    viewer back to the state it was in. *)
Theorem next_then_previous (st : Viewer.State) :
  1 <= Viewer.currentPage st < Viewer.totalPages st ->
  Viewer.step (Viewer.step st Viewer.Next) Viewer.Previous = st.
Proof.
  intros H. destruct st as [pdf cp tp f pos]. cbn in H.
  unfold Viewer.step, Viewer.nextDisabled, Viewer.previousDisabled,
    Viewer.changePage.
  cbn [Viewer.currentPage Viewer.totalPages Viewer.pdf Viewer.selectedField
       Viewer.mousePosition].
  destruct (Z.eqb_spec cp tp); [lia|].
  destruct (Z.leb_spec 1 (cp + 1)); [|lia].
  destruct (Z.leb_spec (cp + 1) tp); [|lia].
  cbn [andb Viewer.currentPage Viewer.totalPages Viewer.pdf
       Viewer.selectedField Viewer.mousePosition].
  destruct (Z.eqb_spec (cp + 1) 1); [lia|].
  destruct (Z.leb_spec 1 (cp + 1 + -1)); [|lia].
  destruct (Z.leb_spec (cp + 1 + -1) tp); [|lia].
  cbn [andb]. f_equal. lia.
Qed.

Lemma next_then_previous_witness :
  Viewer.step (Viewer.step (Viewer.loadPDF Viewer.init 3) Viewer.Next)
    Viewer.Previous
  = Viewer.loadPDF Viewer.init 3.
Proof. apply next_then_previous. cbn. lia. Defined.

End ViewerFacts.

(** ** From a click to the stamp *)

Section ClickToStamp.

Import types PDFLib.

(** X12.  A click in the viewer, handed to [handleAddMapping], adds one
    stamp to the document of every row: on the page the viewer is on, after
    the stamps that were there, the cell of the selected field drawn
    centred on the rounded click and [5] below its height from the top.  The
    other pages come out as before. *)
Theorem click_is_stamped
    (v : Viewer.State) (st : App.State) (customFont : PDFFont)
    (pdfDoc : PDFDocument) (row : ExcelData) (px py : Q) (m : FieldMapping)
    (i : nat) (q : PDFPage) :
  Viewer.handleCanvasClick v px py = Some m ->
  Viewer.currentPage v = Z.of_nat i + 1 ->
  fst (App.rowPages customFont pdfDoc st row) !! i = Some q ->
  fst (App.rowPages customFont pdfDoc (App.handleAddMapping st m) row) !! i
  = Some
      (drawText q
         {| text := App.cellText row (Viewer.selectedField v);
            at_x :=
              (PDFViewer.toDocument px PDFViewer.scale
               - widthOfTextAtSize customFont
                   (App.cellText row (Viewer.selectedField v)) 10 / 2)%Q;
            at_y :=
              (height q - PDFViewer.toDocument py PDFViewer.scale - 5)%Q;
            font := customFont;
            size := 10 |})
  /\ forall j,
       j <> i ->
       fst (App.rowPages customFont pdfDoc (App.handleAddMapping st m) row) !! j
       = fst (App.rowPages customFont pdfDoc st row) !! j.
Proof.
  intros Hclick Hpage Hq.
  unfold Viewer.handleCanvasClick, PDFViewer.handleCanvasClick in Hclick.
  destruct (JS.Boolean (Viewer.selectedField v)); [|discriminate].
  injection Hclick as <-.
  rewrite rowPages_once in Hq.
  split.
  - rewrite rowPages_once. cbn [App.handleAddMapping App.setMappings App.mappings].
    destruct (pdfDoc !! i) as [p|]; [|discriminate]. cbn in Hq |- *.
    injection Hq as <-. f_equal.
    rewrite <- stamped_app, stamped_here by (cbn; lia). reflexivity.
  - intros j Hj. rewrite !rowPages_once.
    cbn [App.handleAddMapping App.setMappings App.mappings].
    destruct (pdfDoc !! j) as [p|]; [|reflexivity]. cbn. f_equal.
    rewrite <- stamped_app, stamped_other by (cbn; lia). reflexivity.
Qed.

Lemma click_is_stamped_witness :
  fst (App.rowPages Sample.font [Sample.a4]
         (App.handleAddMapping
            (Sample.state [Sample.somchai] [Sample.amount])
            {| x := PDFViewer.toDocument 100 PDFViewer.scale;
               y := PDFViewer.toDocument 40 PDFViewer.scale;
               field := "Name";
               page := 1 |})
         Sample.somchai) !! 0%nat
  = Some
      (drawText
         (drawText Sample.a4
            (App.stampFor Sample.font Sample.somchai 842 Sample.amount))
         {| text := "Somchai";
            at_x := (67 - widthOfTextAtSize Sample.font "Somchai" 10 / 2)%Q;
            at_y := (842 - 27 - 5)%Q;
            font := Sample.font;
            size := 10 |}).
Proof.
  apply (click_is_stamped
           (Viewer.setSelectedField (Viewer.loadPDF Viewer.init 1) "Name")
           (Sample.state [Sample.somchai] [Sample.amount])
           Sample.font [Sample.a4] Sample.somchai 100 40
           {| x := PDFViewer.toDocument 100 PDFViewer.scale;
              y := PDFViewer.toDocument 40 PDFViewer.scale;
              field := "Name";
              page := 1 |}
           0%nat
           (drawText Sample.a4
              (App.stampFor Sample.font Sample.somchai 842 Sample.amount)));
    reflexivity.
Defined.

(** X13.  [loadPDF] sets the number of pages and leaves the current page
    where it was.  So when a template with fewer pages than the current page
    is loaded, the next click yields a mapping for a page the template does
    not have, and generation passes it over with a console error on every
    row. *)
Theorem shorter_template_strands_the_page
    (v : Viewer.State) (n : nat) (px py : Q) (m : FieldMapping)
    (customFont : PDFFont) (row : ExcelData) (pages : PDFDocument) :
  Z.of_nat n < Viewer.currentPage v ->
  Viewer.handleCanvasClick (Viewer.loadPDF v n) px py = Some m ->
  length pages = n ->
  Viewer.totalPages (Viewer.loadPDF v n) < Viewer.currentPage (Viewer.loadPDF v n)
  /\ page m = Viewer.currentPage v
  /\ Stamping.drawMapping (App.stampFor customFont row) App.pageNotFound pages m
     = (pages, App.pageNotFound m).
Proof.
  intros Hn Hclick Hlen.
  unfold Viewer.handleCanvasClick, PDFViewer.handleCanvasClick in Hclick.
  cbn [Viewer.loadPDF Viewer.selectedField Viewer.currentPage] in Hclick.
  destruct (JS.Boolean (Viewer.selectedField v)); [|discriminate].
  injection Hclick as <-. cbn. repeat split; [exact Hn|].
  apply drawMapping_beyond. cbn. now rewrite Hlen.
Qed.

Lemma shorter_template_strands_the_page_witness :
  Stamping.drawMapping (App.stampFor Sample.font Sample.somchai)
    App.pageNotFound [Sample.a4; Sample.a4]
    {| x := PDFViewer.toDocument 100 PDFViewer.scale;
       y := PDFViewer.toDocument 40 PDFViewer.scale;
       field := "Name";
       page := 3 |}
  = ([Sample.a4; Sample.a4], [Browser.ConsoleError "Page 3 not found"]).
Proof.
  apply (shorter_template_strands_the_page
           (Viewer.run (Viewer.loadPDF Viewer.init 5)
              [Viewer.Select "Name"; Viewer.Next; Viewer.Next])
           2 100 40); [vm_compute; reflexivity|reflexivity|reflexivity].
Defined.

End ClickToStamp.

(** ** The page as a whole: what its controls allow *)

Section Reachable.

Import types Browser.

(** What every state of the page satisfies. *)
Lemma step_keeps (st : App.State) (a : Handlers.Action) :
  (App.mappings st <> [] -> is_Some (App.pdfFile st)) ->
  App.excelColumns st = Handlers.Object_keys (default ∅ (head (App.excelData st))) ->
  (App.excelData st <> [] -> is_Some (App.excelFile st)) ->
  (App.mappings (Handlers.step st a) <> [] ->
     is_Some (App.pdfFile (Handlers.step st a)))
  /\ App.excelColumns (Handlers.step st a)
     = Handlers.Object_keys (default ∅ (head (App.excelData (Handlers.step st a))))
  /\ (App.excelData (Handlers.step st a) <> [] ->
      is_Some (App.excelFile (Handlers.step st a))).
Proof.
  intros H1 H2 H3. unfold Handlers.step.
  destruct (Handlers.available st a) eqn:Hav; [|done].
  destruct a; cbn [Handlers.handle].
  - unfold Handlers.handlePDFUpload. destruct file as [f|]; [|done].
    destruct (String.eqb _ _); [|done]. cbn. repeat split; eauto.
  - unfold Handlers.handleExcelUpload. destruct file as [f|]; [|done].
    destruct sheet as [jsonData|]; cbn; repeat split; eauto.
  - cbn in Hav. unfold Handlers.viewerShown in Hav.
    destruct (App.pdfFile st) eqn:E; [|discriminate].
    cbn. rewrite E. repeat split; eauto.
  - cbn in Hav. unfold Handlers.viewerShown in Hav.
    destruct (App.pdfFile st) eqn:E; [|discriminate].
    cbn. rewrite E. repeat split; eauto.
  - done.
  - done.
  - done.
  - done.
Qed.

Lemma run_keeps (actions : list Handlers.Action) (st : App.State) :
  (App.mappings st <> [] -> is_Some (App.pdfFile st)) ->
  App.excelColumns st = Handlers.Object_keys (default ∅ (head (App.excelData st))) ->
  (App.excelData st <> [] -> is_Some (App.excelFile st)) ->
  (App.mappings (fold_left Handlers.step actions st) <> [] ->
     is_Some (App.pdfFile (fold_left Handlers.step actions st)))
  /\ App.excelColumns (fold_left Handlers.step actions st)
     = Handlers.Object_keys
         (default ∅ (head (App.excelData (fold_left Handlers.step actions st))))
  /\ (App.excelData (fold_left Handlers.step actions st) <> [] ->
      is_Some (App.excelFile (fold_left Handlers.step actions st))).
Proof.
  revert st. induction actions as [|a actions IH]; intros st H1 H2 H3; [done|].
  cbn [fold_left]. destruct (step_keeps st a H1 H2 H3) as (? & ? & ?).
  now apply IH.
Qed.

Lemma Object_keys_elem (o : ExcelData) (c : string) :
  c ∈ Handlers.Object_keys o <-> is_Some (o !! c).
Proof.
  unfold Handlers.Object_keys. rewrite list_elem_of_fmap. split.
  - intros ([k v] & -> & H). apply elem_of_map_to_list in H. cbn. eauto.
  - intros [v H]. exists (c, v). split; [reflexivity|].
    now apply elem_of_map_to_list.
Qed.

End Reachable.

(** X14.  However the page was used, from its opening state: where there is
    a mapping there is a template; the columns offered for mapping are the
    cells of the first row of the current spreadsheet, so a column that is
    blank in the first row is not offered and an empty spreadsheet offers
    none; and where there are rows there is a spreadsheet file to name the
    downloads after. *)
Theorem page_invariants (actions : list Handlers.Action) :
  (App.mappings (Handlers.run actions) <> [] ->
     is_Some (App.pdfFile (Handlers.run actions)))
  /\ (forall c,
        c ∈ App.excelColumns (Handlers.run actions)
        <-> exists row,
              head (App.excelData (Handlers.run actions)) = Some row
              /\ is_Some (row !! c))
  /\ (App.excelData (Handlers.run actions) <> [] ->
      is_Some (App.excelFile (Handlers.run actions))).
Proof.
  destruct (run_keeps actions Handlers.init) as (H1 & H2 & H3); [done..|].
  fold (Handlers.run actions) in *.
  split; [exact H1|]. split; [|exact H3].
  intros c. rewrite H2, Object_keys_elem.
  destruct (head (App.excelData (Handlers.run actions))) as [row|]; cbn.
  - split; [eauto|]. now intros (? & [= <-] & ?).
  - rewrite lookup_empty. split; [now intros [? ?]|now intros (? & ? & ?)].
Qed.

Lemma page_invariants_witness :
  is_Some
    (App.pdfFile
       (Handlers.run
          [Handlers.UploadExcel (Some Sample.rows_xlsx) (Some [Sample.somchai]);
           Handlers.AddMapping Sample.amount;
           Handlers.UploadPDF (Some Sample.template_pdf);
           Handlers.AddMapping Sample.amount])).
Proof.
  apply (page_invariants
           [Handlers.UploadExcel (Some Sample.rows_xlsx) (Some [Sample.somchai]);
            Handlers.AddMapping Sample.amount;
            Handlers.UploadPDF (Some Sample.template_pdf);
            Handlers.AddMapping Sample.amount]).
  vm_compute. discriminate.
Defined.

(** X15.  When the Generate button can be pressed, pressing it does nothing
    at all exactly when the spreadsheet has no rows; otherwise the run
    starts and asks for the font. *)
Theorem generate_button (w : Browser.World) (actions : list Handlers.Action) :
  Handlers.canGenerate (Handlers.run actions) = true ->
  (App.generatePDFs w (Handlers.run actions) = []
   <-> App.excelData (Handlers.run actions) = [])
  /\ (App.excelData (Handlers.run actions) <> [] ->
      head (App.generatePDFs w (Handlers.run actions))
      = Some (Browser.Fetch App.fontUrl)).
Proof.
  intros Hcan. apply andb_true_iff in Hcan as [Hshown _].
  unfold Handlers.controlsShown in Hshown. apply Nat.ltb_lt in Hshown.
  assert (Hms : App.mappings (Handlers.run actions) <> []).
  { intros E. rewrite E in Hshown. cbn in Hshown. lia. }
  destruct (run_keeps actions Handlers.init) as (H1 & _); [done..|].
  fold (Handlers.run actions) in H1. destruct (H1 Hms) as [pdf Hpdf].
  assert (Hstart : App.excelData (Handlers.run actions) <> [] ->
                   head (App.generatePDFs w (Handlers.run actions))
                   = Some (Browser.Fetch App.fontUrl)).
  { intros Hrows. unfold App.generatePDFs.
    rewrite Hpdf, guard_passes by assumption.
    unfold Browser.bind, Browser.await, Browser.emit.
    destruct (Browser.fetch w App.fontUrl); [|done].
    destruct (Browser.PDFDocument_load w _); [|done].
    destruct (Browser.for_of _ _) as [t [r|]]; done. }
  split; [|exact Hstart]. split.
  - intros Hnil. destruct (decide (App.excelData (Handlers.run actions) = []))
      as [E|Hrows]; [exact E|].
    specialize (Hstart Hrows). now rewrite Hnil in Hstart.
  - intros E. unfold App.generatePDFs. now rewrite Hpdf, E.
Qed.

Lemma generate_button_witness :
  head
    (App.generatePDFs (Sample.online [Sample.a4])
       (Handlers.run
          [Handlers.UploadExcel (Some Sample.rows_xlsx) (Some [Sample.somchai]);
           Handlers.UploadPDF (Some Sample.template_pdf);
           Handlers.AddMapping Sample.amount]))
  = Some (Browser.Fetch App.fontUrl).
Proof.
  apply (generate_button (Sample.online [Sample.a4])
           [Handlers.UploadExcel (Some Sample.rows_xlsx) (Some [Sample.somchai]);
            Handlers.UploadPDF (Some Sample.template_pdf);
            Handlers.AddMapping Sample.amount]).
  - reflexivity.
  - vm_compute. discriminate.
Defined.

(** ** The fields of the filename *)

Section FilenameFields.

Import types.

Lemma omap_imap_Some (fields : list string) (f : nat -> string -> option string) :
  (forall i x, f i x = Some x) -> omap id (imap f fields) = fields.
Proof.
  revert f. induction fields as [|x fields IH]; intros f Hf; [reflexivity|].
  rewrite imap_cons, Hf.
  change (x :: omap id (imap (f ∘ S) fields) = x :: fields).
  f_equal. apply IH. intros i y. apply Hf.
Qed.

Lemma filter_index_delete (index : nat) (fields : list string) :
  Handlers.filter_index index fields = take index fields ++ drop (S index) fields.
Proof.
  revert index. induction fields as [|x fields IH]; intros index.
  - now destruct index.
  - unfold Handlers.filter_index. rewrite imap_cons.
    destruct index as [|index].
    + change (omap id (imap ((fun i f => if decide (i = 0%nat) then None else Some f) ∘ S)
                            fields) = fields).
      apply omap_imap_Some. intros i y. cbn. now case_decide.
    + change (x :: omap id (imap ((fun i f => if decide (i = S index) then None else Some f) ∘ S)
                                 fields)
              = x :: (take index fields ++ drop (S index) fields)).
      f_equal. rewrite <- IH. unfold Handlers.filter_index. f_equal.
      apply imap_ext. intros i y _. cbn. repeat case_decide; congruence.
Qed.

(** X16.  The remove button of the [index]-th filename field takes out
    that entry and no other, keeping the order; and pressing it on the
    entry that "+ Add Field" just appended gives back the list as it was. *)
Theorem remove_filename_field (st : App.State) (index : nat) :
  (index < length (App.selectedFilenameFields st))%nat ->
  App.selectedFilenameFields (Handlers.removeFilenameField st index)
  = take index (App.selectedFilenameFields st)
    ++ drop (S index) (App.selectedFilenameFields st)
  /\ length (App.selectedFilenameFields (Handlers.removeFilenameField st index))
     = (length (App.selectedFilenameFields st) - 1)%nat
  /\ Handlers.removeFilenameField (Handlers.addFilenameField st)
       (length (App.selectedFilenameFields st))
     = Handlers.setSelectedFilenameFields st (App.selectedFilenameFields st).
Proof.
  intros Hi.
  unfold Handlers.removeFilenameField, Handlers.addFilenameField,
    Handlers.setSelectedFilenameFields.
  cbn [App.selectedFilenameFields App.pdfFile App.excelFile App.excelData
       App.excelColumns App.mappings App.customFilename].
  rewrite !filter_index_delete. repeat split.
  - rewrite length_app, length_take, length_drop. lia.
  - f_equal. rewrite take_app_length, drop_ge.
    + apply app_nil_r.
    + rewrite length_app. cbn. lia.
Qed.

Lemma remove_filename_field_witness :
  App.selectedFilenameFields
    (Handlers.removeFilenameField
       (Handlers.setSelectedFilenameFields
          (Sample.state [Sample.somchai] [Sample.amount])
          ["Name"; "Amount"; "Name"])
       1)
  = take 1 ["Name"; "Amount"; "Name"] ++ drop 2 ["Name"; "Amount"; "Name"].
Proof.
  apply (remove_filename_field
           (Handlers.setSelectedFilenameFields
              (Sample.state [Sample.somchai] [Sample.amount])
              ["Name"; "Amount"; "Name"])
           1).
  cbn. lia.
Defined.

Lemma generateDisabled_spec (fields : list string) :
  existsb (fun field => negb (JS.Boolean field)) fields = true
  <-> "" ∈ fields.
Proof.
  rewrite existsb_exists. split.
  - intros (f & Hin & Hf). apply list_elem_of_In in Hin.
    destruct f; [exact Hin|discriminate].
  - intros Hin. exists "". split; [now apply list_elem_of_In|reflexivity].
Qed.

(** X17.  The Generate button is disabled exactly when some filename field
    is still unset; "+ Add Field" therefore always disables it, and giving
    the new entry a column enables it again if it was enabled before. *)
Theorem generate_disabled_by_unset_field (st : App.State) :
  (Handlers.generateDisabled st = true <-> "" ∈ App.selectedFilenameFields st)
  /\ Handlers.generateDisabled (Handlers.addFilenameField st) = true
  /\ (forall column,
        column <> "" ->
        Handlers.generateDisabled st = false ->
        Handlers.generateDisabled
          (Handlers.changeFilenameField (Handlers.addFilenameField st)
             (length (App.selectedFilenameFields st)) column)
        = false).
Proof.
  split; [apply generateDisabled_spec|]. split.
  - apply generateDisabled_spec. cbn. apply elem_of_app. right. left.
  - intros column Hcol Hen. apply not_true_iff_false. intros Hdis.
    apply generateDisabled_spec in Hdis. cbn in Hdis.
    rewrite insert_app_r_alt, Nat.sub_diag in Hdis by lia. cbn in Hdis.
    apply elem_of_app in Hdis as [Hdis|Hdis].
    + apply not_true_iff_false in Hen. apply Hen. now apply generateDisabled_spec.
    + apply list_elem_of_singleton in Hdis. congruence.
Qed.

Lemma generate_disabled_by_unset_field_witness :
  Handlers.generateDisabled
    (Handlers.changeFilenameField
       (Handlers.addFilenameField (Sample.state [Sample.somchai] [Sample.amount]))
       1 "Amount")
  = false.
Proof.
  apply (generate_disabled_by_unset_field
           (Sample.state [Sample.somchai] [Sample.amount]));
    [discriminate|reflexivity].
Defined.

End FilenameFields.

(** ** Which values reach the filename *)

Section FilenameValues.

Import types.

Lemma string_of_uint_nonempty (d : Decimal.uint) :
  NilZero.string_of_uint d <> "".
Proof. now destruct d. Qed.

Lemma String_truthy_nonempty (v : JS.value) :
  JS.truthy v = true -> JS.Boolean (JS.String v) = true.
Proof.
  destruct v as [s|n]; cbn; [done|]. intros _.
  destruct (Z.to_int n) as [d|d]; cbn.
  - pose proof (string_of_uint_nonempty d). now destruct (NilZero.string_of_uint d).
  - reflexivity.
Qed.

Lemma cellText_kept (row : ExcelData) (fields : list string) :
  (forall f, f ∈ fields -> exists v, row !! f = Some v /\ JS.truthy v = true) ->
  filter (fun v => Is_true (JS.Boolean v)) (map (App.cellText row) fields)
  = map (App.cellText row) fields.
Proof.
  induction fields as [|f fields IH]; intros H; [reflexivity|].
  cbn [map]. rewrite filter_cons_True.
  - f_equal. apply IH. intros f' Hf'. apply H. now right.
  - destruct (H f) as (v & Hv & Ht); [left|].
    rewrite (cellText_truthy row f v Hv Ht). apply Is_true_true.
    now apply String_truthy_nonempty.
Qed.

(** X18.  For a row in which every selected filename field has a cell that
    is neither blank nor zero, the filename is the base followed by the
    texts of all of them, in the order they were selected, each after a
    dash: no value is left out. *)
Theorem filename_lists_every_value (st : App.State) (row : ExcelData) :
  App.selectedFilenameFields st <> [] ->
  (forall f, f ∈ App.selectedFilenameFields st ->
             exists v, row !! f = Some v /\ JS.truthy v = true) ->
  App.newFilename st row
  = App.baseFilename st +:+ "-"
    +:+ JS.join "-" (map (App.cellText row) (App.selectedFilenameFields st))
    +:+ ".pdf".
Proof.
  intros Hne Hall. unfold App.newFilename, App.composeFilename.
  rewrite cellText_kept by exact Hall. rewrite length_map.
  destruct (App.selectedFilenameFields st); [done|reflexivity].
Qed.

Lemma filename_lists_every_value_witness :
  App.newFilename
    (Handlers.setSelectedFilenameFields
       (Sample.state [Sample.somchai] [Sample.amount]) ["Amount"; "Name"])
    Sample.somchai
  = "invoice" +:+ "-" +:+ JS.join "-" ["500"; "Somchai"] +:+ ".pdf".
Proof.
  apply (filename_lists_every_value
           (Handlers.setSelectedFilenameFields
              (Sample.state [Sample.somchai] [Sample.amount]) ["Amount"; "Name"])
           Sample.somchai).
  - discriminate.
  - intros f Hf. cbn in Hf.
    apply elem_of_cons in Hf as [->|Hf];
      [exists (JS.Num 500); split; reflexivity|].
    apply list_elem_of_singleton in Hf as ->.
    exists (JS.Str "Somchai"). split; reflexivity.
Defined.

End FilenameValues.

(** ** The markers over the page *)

(** X19.  Adding a mapping puts one more marker, the last, on the overlay
    of the page the mapping is for, at its coordinates times the scale, and
    changes the overlay of no other page. *)
Theorem overlay_after_add
    (st : App.State) (m : types.FieldMapping) (currentPage : Z) :
  PDFViewer.overlay (App.mappings (App.handleAddMapping st m)) currentPage
  = PDFViewer.overlay (App.mappings st) currentPage
    ++ (if decide (types.page m = currentPage)
        then [(PDFViewer.toRaster (types.x m) PDFViewer.scale,
               PDFViewer.toRaster (types.y m) PDFViewer.scale)]
        else []).
Proof.
  unfold PDFViewer.overlay. cbn [App.handleAddMapping App.setMappings App.mappings].
  rewrite filter_app, map_app. f_equal.
  case_decide.
  - now rewrite filter_cons_True.
  - now rewrite filter_cons_False.
Qed.

(** ** The base of the filename *)

(** X20.  What is typed as base filename is the base; with nothing typed it
    is the name of the spreadsheet file without its last extension. *)
Theorem default_base_filename
    (st : App.State) (f : Browser.File) (stem ext : string) :
  App.excelFile st = Some f ->
  Browser.name f = stem +:+ "." +:+ ext ->
  ext <> "" ->
  Chars.plain (String.list_ascii_of_string ext) ->
  App.baseFilename st
  = if JS.Boolean (App.customFilename st) then App.customFilename st else stem.
Proof.
  intros Hf Hname Hext Hplain. unfold App.baseFilename.
  destruct (JS.Boolean (App.customFilename st)); [reflexivity|].
  rewrite Hf, Hname.
  rewrite <- (String.string_of_list_ascii_of_string (stem +:+ "." +:+ ext)).
  rewrite !chars_append. cbn [String.list_ascii_of_string app].
  rewrite strip_extension_stem.
  - rewrite String.string_of_list_ascii_of_string. now destruct stem.
  - destruct ext; [done|discriminate].
  - exact Hplain.
Qed.

Lemma default_base_filename_witness :
  App.baseFilename
    (Handlers.setCustomFilename (Sample.state [Sample.somchai] [Sample.amount]) "")
  = "rows".
Proof.
  apply (default_base_filename
           (Handlers.setCustomFilename
              (Sample.state [Sample.somchai] [Sample.amount]) "")
           Sample.rows_xlsx "rows" "xlsx");
    [reflexivity|reflexivity|discriminate|].
  repeat (apply List.Forall_cons; [split; discriminate|]). apply List.Forall_nil.
Defined.

(** X21.  A spreadsheet that cannot be read still becomes the file the
    downloads are named after, while the rows, the columns and the mappings
    stay those of the spreadsheet before it. *)
Theorem unreadable_spreadsheet
    (st : App.State) (f : Browser.File) (row : types.ExcelData) :
  App.customFilename st = "" ->
  App.excelData (Handlers.handleExcelUpload st (Some f) None) = App.excelData st
  /\ App.excelColumns (Handlers.handleExcelUpload st (Some f) None)
     = App.excelColumns st
  /\ App.mappings (Handlers.handleExcelUpload st (Some f) None) = App.mappings st
  /\ App.newFilename (Handlers.handleExcelUpload st (Some f) None) row
     = App.composeFilename
         (Replace.strip_extension (Browser.name f))
         (map (App.cellText row) (App.selectedFilenameFields st)).
Proof.
  intros Hcustom. repeat split.
  unfold App.newFilename, App.baseFilename. cbn. rewrite Hcustom. cbn.
  now destruct (Replace.strip_extension (Browser.name f)).
Qed.

Lemma unreadable_spreadsheet_witness :
  App.newFilename
    (Handlers.handleExcelUpload
       (Handlers.setCustomFilename
          (Sample.state [Sample.somchai] [Sample.amount]) "")
       (Some {| Browser.name := "broken.xls"; Browser.type := "";
                Browser.data := [] |})
       None)
    Sample.somchai
  = App.composeFilename (Replace.strip_extension "broken.xls") ["Somchai"].
Proof.
  apply (unreadable_spreadsheet
           (Handlers.setCustomFilename
              (Sample.state [Sample.somchai] [Sample.amount]) "")
           {| Browser.name := "broken.xls"; Browser.type := "";
              Browser.data := [] |}
           Sample.somchai).
  reflexivity.
Defined.

(** ** The earlier revision once more *)

Section Part000Facts.

Import types PDFLib Browser.

Lemma silent_log options (ms : list FieldMapping) (pages : PDFDocument) :
  snd (Stamping.drawMappings options (fun _ => []) pages ms) = [].
Proof.
  rewrite drawMappings_log. induction ms as [|m ms IH]; [reflexivity|].
  cbn [map concat]. rewrite IH. now destruct (Stamping.onPage _ m).
Qed.

Lemma Part000_row_log_console customFont pdfDoc (st : Part000.State) row :
  Forall (fun e => exists msg, e = ConsoleError msg)
         (snd (Part000.rowPages customFont pdfDoc st row)).
Proof.
  unfold Part000.rowPages, Part000.drawUnawaited, Part000.drawAwaited.
  pose proof (stamping_log_console (Part000.stampFor customFont row)
                Part000.pageNotFound (Part000.mappings st)
                (copyPages pdfDoc (pageIndices (getPageCount pdfDoc)))) as H1.
  destruct (Stamping.drawMappings _ Part000.pageNotFound _ _) as [pages1 log1].
  pose proof (stamping_log_console (Part000.stampFor customFont row)
                (fun _ => []) (Part000.mappings st) pages1) as H2.
  destruct (Stamping.drawMappings _ (fun _ => []) _ _) as [pages2 log2].
  cbn [snd] in *. apply Forall_app. split.
  - apply H1. intros m. repeat constructor. eauto.
  - apply H2. intros m. constructor.
Qed.

Lemma Part000_rows_pauses customFont pdfDoc (st : Part000.State) pdf
    (rows : list ExcelData) :
  Trace.pauses
    (concat (map (fun row =>
                    snd (Part000.rowPages customFont pdfDoc st row)
                    ++ [Download (Part000.rowDocument customFont pdfDoc st pdf row)])
                 rows))
  = [].
Proof.
  induction rows as [|row rows IH]; [reflexivity|].
  cbn [map concat]. unfold Trace.pauses in *. rewrite !omap_app, IH.
  destruct (console_only_projections _
              (Part000_row_log_console customFont pdfDoc st row)) as (Hp & _).
  unfold Trace.pauses in Hp. now rewrite Hp.
Qed.

Lemma Part000_console_rows customFont pdfDoc (st : Part000.State) pdf
    (rows : list ExcelData) :
  console
    (concat (map (fun row =>
                    snd (Part000.rowPages customFont pdfDoc st row)
                    ++ [Download (Part000.rowDocument customFont pdfDoc st pdf row)])
                 rows))
  = concat
      (map (fun _ =>
              map (fun m => "Page "
                            +:+ NilZero.string_of_int (Z.to_int (page m))
                            +:+ " not found")
                  (filter (fun m => ~ Is_true
                             (Stamping.onPage (getPageCount pdfDoc) m))
                          (Part000.mappings st)))
           rows).
Proof.
  induction rows as [|row rows IH]; [reflexivity|].
  cbn [map concat]. unfold console in *. rewrite !omap_app, IH.
  cbn [omap]. change (list_omap _ _ ?f []) with (@nil string).
  rewrite app_nil_r. f_equal.
  unfold Part000.rowPages, Part000.drawUnawaited, Part000.drawAwaited,
    Part000.pageNotFound.
  rewrite copyPages_all.
  pose proof (console_stamping_log (Part000.stampFor customFont row)
                (Part000.mappings st) pdfDoc
                (fun m => "Page " +:+ NilZero.string_of_int (Z.to_int (page m))
                          +:+ " not found")) as H1.
  destruct (Stamping.drawMappings _ _ pdfDoc _) as [pages1 log1].
  pose proof (silent_log (Part000.stampFor customFont row)
                (Part000.mappings st) pages1) as H2.
  destruct (Stamping.drawMappings _ (fun _ => []) _ _) as [pages2 log2].
  cbn [snd] in *. subst log2. unfold console in *.
  now rewrite app_nil_r.
Qed.

End Part000Facts.

(** X22.  The earlier revision goes over the mappings twice for every row
    but reports a missing page once: in a run in which nothing fails its
    console holds, row after row, one [Page N not found] for each mapping
    whose page the template does not have. *)
Theorem part000_reports_once
    (w : Browser.World) (st : Part000.State) (pdf : Browser.File)
    (fontBytes : list Byte.byte) (pdfDoc : PDFLib.PDFDocument)
    (customFont : PDFLib.PDFFont) :
  Part000.pdfFile st = Some pdf ->
  Part000.mappings st <> [] ->
  Browser.fetch w App.fontUrl = Some fontBytes ->
  Browser.PDFDocument_load w (Browser.data pdf) = Some pdfDoc ->
  Browser.embedFont w fontBytes = Some customFont ->
  Browser.console (Part000.generatePDFs w st)
  = concat
      (map (fun _ =>
              map (fun m => "Page "
                            +:+ NilZero.string_of_int (Z.to_int (types.page m))
                            +:+ " not found")
                  (filter (fun m => ~ Is_true
                             (Stamping.onPage (PDFLib.getPageCount pdfDoc) m))
                          (Part000.mappings st)))
           (Part000.excelData st)).
Proof.
  intros Hpdf Hms Hfetch Hload Hembed.
  destruct (decide (Part000.excelData st = [])) as [E|Hrows].
  - unfold Part000.generatePDFs. rewrite Hpdf, E. done.
  - rewrite (Part000_generatePDFs_completes w st pdf fontBytes pdfDoc customFont)
      by assumption.
    rewrite <- (Part000_console_rows customFont pdfDoc st pdf).
    reflexivity.
Qed.

Lemma part000_reports_once_witness :
  Browser.console
    (Part000.generatePDFs (Sample.online [Sample.a4; Sample.a4])
       (Sample.state000 [Sample.somchai; Sample.malee]
          [Sample.amount; Sample.name_on_page_3]))
  = ["Page 3 not found"; "Page 3 not found"].
Proof.
  rewrite (part000_reports_once (Sample.online [Sample.a4; Sample.a4])
             (Sample.state000 [Sample.somchai; Sample.malee]
                [Sample.amount; Sample.name_on_page_3])
             Sample.template_pdf [] [Sample.a4; Sample.a4] Sample.font);
    [reflexivity|reflexivity|discriminate|reflexivity..].
Defined.

(** X23.  The earlier revision never pauses: whatever the world answers,
    its run holds no [setTimeout]; each document is downloaded as soon as it
    is made. *)
Theorem part000_never_pauses (w : Browser.World) (st : Part000.State) :
  Trace.pauses (Part000.generatePDFs w st) = [].
Proof.
  unfold Part000.generatePDFs.
  destruct (Part000.pdfFile st) as [pdf|]; [|reflexivity].
  destruct ((length (Part000.excelData st) =? 0)%nat
            || (length (Part000.mappings st) =? 0)%nat); [reflexivity|].
  unfold Browser.bind, Browser.await, Browser.emit.
  destruct (Browser.fetch w App.fontUrl) as [fontBytes|]; [|reflexivity].
  destruct (Browser.PDFDocument_load w (Browser.data pdf)) as [pdfDoc|];
    [|reflexivity].
  destruct (Browser.embedFont w fontBytes) as [customFont|] eqn:Hembed.
  - rewrite (for_of_returns _ _
               (fun row =>
                  snd (Part000.rowPages customFont pdfDoc st row)
                  ++ [Browser.Download
                        (Part000.rowDocument customFont pdfDoc st pdf row)])
               (fun _ => tt))
      by (intros row; now apply Part000_generateOne_returns).
    cbv beta iota. unfold Browser.trace, Browser.try_catch, Browser.ret, fst.
    pose proof (Part000_rows_pauses customFont pdfDoc st pdf
                  (Part000.excelData st)) as Hp.
    unfold Trace.pauses in *. rewrite !omap_app, Hp. reflexivity.
  - destruct (Part000.excelData st) as [|row rows]; [reflexivity|].
    rewrite (for_of_throws row rows _ [])
      by now apply Part000_generateOne_throws.
    reflexivity.
Qed.

(** ** The position readout and the click *)

(** X24.  A click records a mapping exactly when a field is selected; the
    mapping is for the selected field on the current page, at the
    coordinates the position readout shows for the same pointer position. *)
Theorem click_stores_the_readout (st : Viewer.State) (px py : Q) :
  (Viewer.handleCanvasClick st px py = None <-> Viewer.selectedField st = "")
  /\ forall m,
       Viewer.handleCanvasClick st px py = Some m ->
       (types.x m, types.y m)
       = Viewer.mousePosition (Viewer.handleMouseMove st px py)
       /\ types.field m = Viewer.selectedField st
       /\ types.page m = Viewer.currentPage st.
Proof.
  unfold Viewer.handleCanvasClick, PDFViewer.handleCanvasClick.
  destruct (Viewer.selectedField st) as [|c f] eqn:E; cbn.
  - split; [done|]. discriminate.
  - split; [split; discriminate|]. now intros m [= <-].
Qed.

Lemma click_stores_the_readout_witness :
  (67%Q, 27%Q)
  = Viewer.mousePosition
      (Viewer.handleMouseMove
         (Viewer.setSelectedField (Viewer.loadPDF Viewer.init 1) "Name") 100 40).
Proof.
  apply (proj2 (click_stores_the_readout
                  (Viewer.setSelectedField (Viewer.loadPDF Viewer.init 1) "Name")
                  100 40)
           {| types.x := 67; types.y := 27; types.field := "Name";
              types.page := 1 |}).
  reflexivity.
Defined.

(** ** Where a value is stamped, in both revisions *)

(** C4, amended.  On every page of the template, the document of a row
    holds what the template held followed by the stamps of the mappings that
    name the page, each the cell text at size 10 drawn at
    [y = height - mapping.y - 5], the height being that of the page.  In
    [App.tsx] there is one stamp per mapping, drawn at
    [x = mapping.x - textWidth / 2], the width being that of the text in the
    embedded font at size 10; in the earlier revision the stamps are drawn at
    [x = mapping.x] itself, and the whole series is there twice. *)
Theorem stamp_position
    (customFont : PDFLib.PDFFont) (pdfDoc : PDFLib.PDFDocument)
    (row : types.ExcelData) (i : nat) (p : PDFLib.PDFPage) :
  pdfDoc !! i = Some p ->
  (forall st : App.State,
      exists q,
        fst (App.rowPages customFont pdfDoc st row) !! i = Some q
        /\ PDFLib.height q = PDFLib.height p
        /\ PDFLib.content q
           = PDFLib.content p
             ++ map (fun m =>
                       {| PDFLib.text := App.cellText row (types.field m);
                          PDFLib.at_x :=
                            (types.x m
                             - PDFLib.widthOfTextAtSize customFont
                                 (App.cellText row (types.field m)) 10 / 2)%Q;
                          PDFLib.at_y := (PDFLib.height p - types.y m - 5)%Q;
                          PDFLib.font := customFont;
                          PDFLib.size := 10 |})
                    (filter (fun m => types.page m = Z.of_nat i + 1)
                            (App.mappings st)))
  /\ (forall st : Part000.State,
        exists q,
          fst (Part000.rowPages customFont pdfDoc st row) !! i = Some q
          /\ PDFLib.height q = PDFLib.height p
          /\ PDFLib.content q
             = PDFLib.content p
               ++ map (fun m =>
                         {| PDFLib.text := Part000.cellText row (types.field m);
                            PDFLib.at_x := types.x m;
                            PDFLib.at_y := (PDFLib.height p - types.y m - 5)%Q;
                            PDFLib.font := customFont;
                            PDFLib.size := 10 |})
                      (filter (fun m => types.page m = Z.of_nat i + 1)
                              (Part000.mappings st))
               ++ map (fun m =>
                         {| PDFLib.text := Part000.cellText row (types.field m);
                            PDFLib.at_x := types.x m;
                            PDFLib.at_y := (PDFLib.height p - types.y m - 5)%Q;
                            PDFLib.font := customFont;
                            PDFLib.size := 10 |})
                      (filter (fun m => types.page m = Z.of_nat i + 1)
                              (Part000.mappings st))).
Proof.
  intros Hp. split; intros st.
  - rewrite rowPages_once, Hp. cbn.
    eexists. split; [reflexivity|]. split; reflexivity.
  - rewrite rowPages_part000_twice, Hp. cbn.
    eexists. split; [reflexivity|]. split; [reflexivity|].
    cbn. now rewrite filter_app, map_app.
Qed.

Lemma stamp_position_witness :
  (exists q,
      fst (App.rowPages Sample.font [Sample.a4]
             (Sample.state [Sample.somchai] [Sample.amount]) Sample.somchai)
        !! 0%nat
      = Some q
      /\ PDFLib.height q = 842%Q
      /\ map (fun s => (PDFLib.text s, Qred (PDFLib.at_x s), Qred (PDFLib.at_y s)))
             (PDFLib.content q)
         = [("500", (185 # 2)%Q, 787%Q)])
  /\ (exists q,
        fst (Part000.rowPages Sample.font [Sample.a4]
               (Sample.state000 [Sample.somchai] [Sample.amount]) Sample.somchai)
          !! 0%nat
        = Some q
        /\ PDFLib.height q = 842%Q
        /\ map (fun s => (PDFLib.text s, Qred (PDFLib.at_x s), Qred (PDFLib.at_y s)))
               (PDFLib.content q)
           = [("500", 100%Q, 787%Q); ("500", 100%Q, 787%Q)]).
Proof.
  destruct (stamp_position Sample.font [Sample.a4] Sample.somchai
              0%nat Sample.a4 eq_refl) as [Happ Hold].
  split.
  - destruct (Happ (Sample.state [Sample.somchai] [Sample.amount]))
      as (q & Hq & Hh & Hc).
    exists q. split; [exact Hq|]. split; [exact Hh|].
    rewrite Hc. vm_compute. reflexivity.
  - destruct (Hold (Sample.state000 [Sample.somchai] [Sample.amount]))
      as (q & Hq & Hh & Hc).
    exists q. split; [exact Hq|]. split; [exact Hh|].
    rewrite Hc. vm_compute. reflexivity.
Defined.

(** C4 as stated fails in the earlier revision: the value "500", 15 wide at
    size 10, mapped to [x = 100], is drawn at 100 and not at 92.5, in the
    document that is downloaded. *)
Lemma part000_is_left_aligned :
  map (fun d => map (fun s => Qred (PDFLib.at_x s))
                    (PDFLib.stamps (PDFLib.saved (Browser.bytes d))))
      (Browser.downloads
         (Part000.generatePDFs (Sample.online [Sample.a4])
            (Sample.state000 [Sample.somchai] [Sample.amount])))
  = [[100%Q; 100%Q]]
  /\ (types.x Sample.amount
      - PDFLib.widthOfTextAtSize Sample.font
          (Part000.cellText Sample.somchai (types.field Sample.amount)) 10 / 2
      == 185 # 2)%Q
  /\ ~ (PDFLib.at_x (Part000.stampFor Sample.font Sample.somchai 842 Sample.amount)
        == types.x Sample.amount
           - PDFLib.widthOfTextAtSize Sample.font
               (Part000.cellText Sample.somchai (types.field Sample.amount)) 10
             / 2)%Q.
Proof.
  split; [vm_compute; reflexivity|]. split; [vm_compute; reflexivity|].
  intros E. vm_compute in E. discriminate.
Qed.

(** ** A mapping that names a page beyond the last *)

Lemma saved_save (doc : PDFLib.PDFDocument) :
  doc <> [] -> PDFLib.saved (PDFLib.save doc) = doc.
Proof. now destruct doc. Qed.

Lemma App_rowPages_length customFont pdfDoc (st : App.State) row :
  length (fst (App.rowPages customFont pdfDoc st row)) = length pdfDoc.
Proof.
  unfold App.rowPages, App.drawMappings.
  now rewrite drawMappings_length, copyPages_all.
Qed.

Lemma off_page_listed (n : nat) (m : types.FieldMapping)
    (ms : list types.FieldMapping) :
  m ∈ ms -> Z.of_nat n < types.page m ->
  m ∈ filter (fun m => ~ Is_true (Stamping.onPage n m)) ms.
Proof.
  intros Hm Hpage. apply list_elem_of_filter. split; [|exact Hm].
  rewrite (beyond_last_page n m Hpage). cbn. tauto.
Qed.

(** C5.  A mapping whose page number is beyond the last page of the template
    is passed over by the callback with [Page N not found] on the console,
    and with nothing else.  In the run, the console holds for each row the
    messages of the mappings without a page, that of this mapping among
    them; no alert is raised; and every row gets its download, in which each
    page of the template comes with its size, the text it held and, after
    it, one stamp for each mapping that names the page: the cell text of the
    row, centred on [mapping.x] and at [height - mapping.y - 5]. *)
Theorem missing_page_is_skipped
    (w : Browser.World) (st : App.State) (pdf : Browser.File)
    (fontBytes : list Byte.byte) (pdfDoc : PDFLib.PDFDocument)
    (customFont : PDFLib.PDFFont) (m : types.FieldMapping) :
  App.pdfFile st = Some pdf ->
  Browser.fetch w App.fontUrl = Some fontBytes ->
  Browser.PDFDocument_load w (Browser.data pdf) = Some pdfDoc ->
  Browser.embedFont w fontBytes = Some customFont ->
  m ∈ App.mappings st ->
  Z.of_nat (PDFLib.getPageCount pdfDoc) < types.page m ->
  (forall row pages,
      length pages = PDFLib.getPageCount pdfDoc ->
      Stamping.drawMapping (App.stampFor customFont row) App.pageNotFound pages m
      = (pages,
         [Browser.ConsoleError
            ("Page " +:+ NilZero.string_of_int (Z.to_int (types.page m))
             +:+ " not found")]))
  /\ Browser.console (App.generatePDFs w st)
     = concat
         (map (fun _ =>
                 map (fun m' => "Page "
                                +:+ NilZero.string_of_int (Z.to_int (types.page m'))
                                +:+ " not found")
                     (filter (fun m' => ~ Is_true
                                (Stamping.onPage (PDFLib.getPageCount pdfDoc) m'))
                             (App.mappings st)))
              (App.excelData st))
  /\ m ∈ filter (fun m' => ~ Is_true
                   (Stamping.onPage (PDFLib.getPageCount pdfDoc) m'))
                (App.mappings st)
  /\ Browser.alerts (App.generatePDFs w st) = []
  /\ length (Browser.downloads (App.generatePDFs w st))
     = length (App.excelData st)
  /\ forall i row,
       App.excelData st !! i = Some row ->
       exists d,
         Browser.downloads (App.generatePDFs w st) !! i = Some d
         /\ (pdfDoc <> [] ->
             length (PDFLib.saved (Browser.bytes d)) = length pdfDoc)
         /\ forall j p,
              pdfDoc !! j = Some p ->
              types.page m <> Z.of_nat j + 1
              /\ PDFLib.saved (Browser.bytes d) !! j
                 = Some
                     {| PDFLib.width := PDFLib.width p;
                        PDFLib.height := PDFLib.height p;
                        PDFLib.content :=
                          PDFLib.content p
                          ++ map (fun m' =>
                                    {| PDFLib.text :=
                                         JS.String
                                           (JS.or_empty (row !! types.field m'));
                                       PDFLib.at_x :=
                                         (types.x m'
                                          - PDFLib.widthOfTextAtSize customFont
                                              (JS.String
                                                 (JS.or_empty
                                                    (row !! types.field m')))
                                              10 / 2)%Q;
                                       PDFLib.at_y :=
                                         (PDFLib.height p - types.y m' - 5)%Q;
                                       PDFLib.font := customFont;
                                       PDFLib.size := 10 |})
                                 (filter (fun m' => types.page m' = Z.of_nat j + 1)
                                         (App.mappings st)) |}.
Proof.
  intros Hpdf Hfetch Hload Hembed Hm Hpage.
  assert (Hms : App.mappings st <> []).
  { intros E. rewrite E in Hm. inversion Hm. }
  destruct (App_generatePDFs_downloads w st pdf fontBytes pdfDoc customFont)
    as [Hd Ha]; try assumption.
  split; [|split; [|split; [|split; [|split]]]].
  - intros row pages Hlen.
    rewrite drawMapping_beyond by (now rewrite Hlen). reflexivity.
  - destruct (decide (App.excelData st = [])) as [E|Hrows].
    + unfold App.generatePDFs. rewrite Hpdf, E. done.
    + rewrite (App_generatePDFs_completes w st pdf fontBytes pdfDoc customFont)
        by assumption.
      rewrite <- (console_rows customFont pdfDoc st).
      unfold Browser.console. rewrite !omap_app.
      fold (Browser.console (App.downloadAll
                               (map (App.rowDocument customFont pdfDoc st)
                                    (App.excelData st)))).
      rewrite console_downloadAll, app_nil_r. reflexivity.
  - now apply off_page_listed.
  - exact Ha.
  - rewrite Hd. apply length_map.
  - intros i row Hrow. exists (App.rowDocument customFont pdfDoc st row).
    split; [rewrite Hd, list_lookup_fmap, Hrow; reflexivity|].
    cbn [App.rowDocument Browser.bytes].
    assert (Hlen := App_rowPages_length customFont pdfDoc st row).
    split.
    + intros Hne. rewrite saved_save; [exact Hlen|].
      intros E. rewrite E in Hlen. destruct pdfDoc; [done|discriminate].
    + intros j p Hp. split.
      * apply lookup_lt_Some in Hp. unfold PDFLib.getPageCount in Hpage. lia.
      * rewrite saved_save.
        -- rewrite rowPages_once, Hp. reflexivity.
        -- intros E. rewrite E in Hlen. apply lookup_lt_Some in Hp.
           cbn in Hlen. lia.
Qed.

Lemma missing_page_is_skipped_witness :
  Browser.console
    (App.generatePDFs (Sample.online [Sample.a4; Sample.a4])
       (Sample.state [Sample.somchai; Sample.malee]
          [Sample.amount; Sample.name_on_page_3]))
  = concat
      (map (fun _ =>
              map (fun m' => "Page "
                             +:+ NilZero.string_of_int (Z.to_int (types.page m'))
                             +:+ " not found")
                  (filter (fun m' => ~ Is_true (Stamping.onPage 2 m'))
                          [Sample.amount; Sample.name_on_page_3]))
           [Sample.somchai; Sample.malee])
  /\ length
       (Browser.downloads
          (App.generatePDFs (Sample.online [Sample.a4; Sample.a4])
             (Sample.state [Sample.somchai; Sample.malee]
                [Sample.amount; Sample.name_on_page_3])))
     = 2%nat.
Proof.
  destruct (missing_page_is_skipped
              (Sample.online [Sample.a4; Sample.a4])
              (Sample.state [Sample.somchai; Sample.malee]
                 [Sample.amount; Sample.name_on_page_3])
              Sample.template_pdf [] [Sample.a4; Sample.a4] Sample.font
              Sample.name_on_page_3)
    as (_ & Hlog & _ & _ & Hd & _);
    [reflexivity| reflexivity | reflexivity | reflexivity
    | apply list_elem_of_further, list_elem_of_here
    | vm_compute; reflexivity |].
  split; [exact Hlog|exact Hd].
Defined.

(** ** The filename of the earlier revision *)

(** C2, at a row whose cell for the filename field is blank: the earlier
    revision names the download [template-.pdf], keeping the dash, where
    the composer gives the base and [.pdf]; [App.tsx], on the same row,
    drops the dash. *)
Theorem part000_filename_keeps_the_dash :
  Sample.nameless !! "Name" = None
  /\ map Browser.filename
         (Browser.downloads
            (Part000.generatePDFs (Sample.online [Sample.a4])
               (Sample.state000 [Sample.nameless] [Sample.amount])))
     = ["template-.pdf"]
  /\ Spec.compose "template" [Part000.cellText Sample.nameless "Name"]
     = "template.pdf"
  /\ map Browser.filename
         (Browser.downloads
            (App.generatePDFs (Sample.online [Sample.a4])
               (Sample.state [Sample.nameless] [Sample.amount])))
     = ["invoice.pdf"].
Proof. repeat split; vm_compute; reflexivity. Qed.
